(** * The Kafka request/response bridge of the Flask client

    A shallow embedding of [src/project/client/kafka_client.py],
    [src/project/client/app.py] and [src/project/client/gcp_config.py].

    The Python code talks to three things it does not own: the process
    environment, the clock, and the Kafka broker reached through
    kafka-python.  Here they are fields of an explicit [World] that every
    function threads through: the clock is a number of milliseconds, the
    broker is a script of what it will answer, and every call into
    kafka-python or the logger is appended to a trace.

    Time passes in one place only, while [consumer.poll] waits; every
    other statement is instantaneous.  A Python [int] is a [Z], a [str] a
    [string], a [dict] with string keys a [gmap string]. *)

From stdpp Require Import base option list gmap strings.
From Equations Require Import Equations.
From Stdlib Require Import ZArith NArith Ascii Lia.

Local Open Scope string_scope.
Local Open Scope Z_scope.

(** ** Values *)

(** Python exceptions, by the class an [except] clause can tell apart.
    [json.JSONDecodeError] and [UnicodeDecodeError] are [ValueError]s;
    [EnvironmentError] is Python's alias of [OSError]. *)
Inductive exn : Type :=
| KafkaError (what : string)
| ValueError (what : string)
| EnvironmentError (what : string)
| RuntimeError (what : string).

(** [str(exc)] *)
Definition exn_text (e : exn) : string :=
  match e with
  | KafkaError what | ValueError what | EnvironmentError what
  | RuntimeError what => what
  end.

Definition is_KafkaError (e : exn) : bool :=
  match e with KafkaError _ => true | _ => false end.

(** What [json.loads] builds.  A float keeps its literal. *)
#[warnings="-register-all"]
Inductive json : Type :=
| JNull
| JBool (b : bool)
| JInt (n : Z)
| JFloat (literal : string)
| JStr (s : string)
| JList (items : list json)
| JDict (fields : gmap string json).

(** The bytes of a Kafka record, classified by what the consumer's
    [value_deserializer], [json.loads(b.decode("utf-8"))], does with them:
    [Encoded v] is a UTF-8 JSON text of [v], [Garbage raw] is anything
    else. *)
Inductive wire : Type :=
| Encoded (v : json)
| Garbage (raw : string).

(** The result of a call: a value, or an exception that propagates. *)
Inductive outcome (A : Type) : Type :=
| Returned (a : A)
| Raised (e : exn).
Arguments Returned {A} a.
Arguments Raised {A} e.

(** ** The broker, as kafka-python shows it *)

Inductive offset_reset : Type := latest | earliest.

(** What a fetch brings: the records of each partition that has some, or
    a failure of the subscription. *)
Inductive fetch : Type :=
| Records (partitions : list (list wire))
| Failure (e : exn).

(** One thing that will happen on a topic: [a_delay] milliseconds after
    the previous one, [a_fetch] becomes available to a consumer. *)
Record arrival : Type := Arrival { a_delay : N; a_fetch : fetch }.

(** A topic at the moment a consumer subscribes: the records already in
    its log, and what arrives afterwards. *)
Record Topic : Type := MkTopic {
  t_backlog : list (list wire);
  t_feed : list arrival }.

Definition empty_topic : Topic := MkTopic [] [].

(** Answer of the broker to [producer.send(...).get(timeout=10)]. *)
Inductive send_result : Type :=
| Ack (partition offset : Z)
| SendFails (e : exn).

Record Broker : Type := MkBroker {
  b_connect : option exn;      (* KafkaProducer(...) raises this *)
  b_send : send_result;
  b_subscribe : option exn;    (* KafkaConsumer(...) raises this *)
  b_topics : gmap string Topic }.

(** ** The trace *)

Inductive level : Type := INFO | WARNING | ERROR.

(** One constructor for each call that leaves the process: the
    constructors and methods of kafka-python that the code uses, the
    submission of a Dataproc job, and the methods of [logger]. *)
Inductive event : Type :=
| KafkaProducer_new (bootstrap_servers : string)
| Producer_send (topic : string) (value : json)
| KafkaConsumer_new (topic bootstrap_servers group_id : string)
                    (auto_offset_reset : offset_reset)
| Consumer_poll (group_id : string) (timeout_ms : N)
                (result : outcome (list (list json)))
| Consumer_close (group_id : string)
| Dataproc_submit (args : list string)   (* submit_job_as_operation *)
| Log (lvl : level) (format : string) (args : list json).

(** ** The world *)

(** The [KafkaClient] instance: [self.broker] and whether
    [self._producer] has been created. *)
Record KafkaClient : Type := MkKafkaClient {
  broker : string;
  _producer : bool }.

Record World : Type := MkWorld {
  w_now : Z;                         (* time.time(), in milliseconds *)
  w_environ : gmap string string;    (* os.environ *)
  w_uuid : string;                   (* str(uuid.uuid4()) *)
  w_broker : Broker;
  w_kafka : KafkaClient;             (* the module-level [kafka] *)
  w_session : gmap string string;    (* flask.session *)
  w_open : nat;                      (* consumers open and not closed *)
  w_trace : list event }.

Definition set_now (t : Z) (w : World) : World :=
  MkWorld t (w_environ w) (w_uuid w) (w_broker w) (w_kafka w)
          (w_session w) (w_open w) (w_trace w).


Definition set_kafka (k : KafkaClient) (w : World) : World :=
  MkWorld (w_now w) (w_environ w) (w_uuid w) (w_broker w) k
          (w_session w) (w_open w) (w_trace w).

Definition set_session (s : gmap string string) (w : World) : World :=
  MkWorld (w_now w) (w_environ w) (w_uuid w) (w_broker w) (w_kafka w)
          s (w_open w) (w_trace w).

Definition set_open (n : nat) (w : World) : World :=
  MkWorld (w_now w) (w_environ w) (w_uuid w) (w_broker w) (w_kafka w)
          (w_session w) n (w_trace w).

Definition set_topics (topics : gmap string Topic) (w : World) : World :=
  MkWorld (w_now w) (w_environ w) (w_uuid w)
          (MkBroker (b_connect (w_broker w)) (b_send (w_broker w))
                    (b_subscribe (w_broker w)) topics)
          (w_kafka w) (w_session w) (w_open w) (w_trace w).

Definition record (ev : event) (w : World) : World :=
  MkWorld (w_now w) (w_environ w) (w_uuid w) (w_broker w) (w_kafka w)
          (w_session w) (w_open w) (w_trace w ++ [ev]).

(** ** A state-and-exception monad *)

Definition M (A : Type) : Type := World → outcome A * World.

Definition ret {A} (a : A) : M A := λ w, (Returned a, w).

Definition raise {A} (e : exn) : M A := λ w, (Raised e, w).

Definition bind {A B} (m : M A) (k : A → M B) : M B :=
  λ w, match m w with
       | (Returned a, w1) => k a w1
       | (Raised e, w1) => (Raised e, w1)
       end.

#[export] Instance M_ret : MRet M := @ret.
#[export] Instance M_bind : MBind M := λ A B k m, bind m k.

(** [try: body finally: fin]: [fin] runs on every way out of [body]; an
    exception of [fin] replaces the outcome of [body]. *)
Definition try_finally {A} (body : M A) (fin : M unit) : M A :=
  λ w, match body w with
       | (o, w1) =>
           match fin w1 with
           | (Returned _, w2) => (o, w2)
           | (Raised e, w2) => (Raised e, w2)
           end
       end.

(** [try: body except C as exc: handler exc] for the class picked by
    [catches]. *)
Definition try_except {A} (body : M A) (catches : exn → bool)
    (handler : exn → M A) : M A :=
  λ w, match body w with
       | (Returned a, w1) => (Returned a, w1)
       | (Raised e, w1) => if catches e then handler e w1 else (Raised e, w1)
       end.

Definition get : M World := λ w, (Returned w, w).
Definition modify (f : World → World) : M unit := λ w, (Returned tt, f w).
Definition emit (ev : event) : M unit := modify (record ev).

Definition logger (lvl : level) (format : string) (args : list json) : M unit :=
  emit (Log lvl format args).

Definition time_time : M Z := λ w, (Returned (w_now w), w).

(** [os.getenv(name, default)] *)
Definition getenv (name fallback : string) : M string :=
  λ w, (Returned (default fallback (w_environ w !! name)), w).

Definition uuid4 : M string := λ w, (Returned (w_uuid w), w).

(** * kafka_client.py *)

Module kafka_client.


(** ** Producer *)

(** [KafkaClient._get_producer]: the cached producer, created on first
    use.  The constructor connects to [self.broker] and may raise. *)
Definition _get_producer : M unit :=
  w ← get;
  if _producer (w_kafka w) then mret tt
  else
    emit (KafkaProducer_new (broker (w_kafka w)));;
    match b_connect (w_broker w) with
    | Some e => raise e
    | None => modify (set_kafka (MkKafkaClient (broker (w_kafka w)) true))
    end.

(** [producer.send(topic, value=message).get(timeout=10)] *)
Definition send_and_wait (topic : string) (message : json) : M (Z * Z) :=
  emit (Producer_send topic message);;
  w ← get;
  match b_send (w_broker w) with
  | Ack partition offset => mret (partition, offset)
  | SendFails e => raise e
  end.

(** [KafkaClient.produce] *)
Definition produce (topic : string) (message : json) : M unit :=
  _get_producer;;
  try_except
    (record_metadata ← send_and_wait topic message;
     logger INFO "Produced to %s [partition %d offset %d]"
       [JStr topic; JInt record_metadata.1; JInt record_metadata.2])
    is_KafkaError
    (λ exc,
       logger ERROR "Failed to produce message to %s: %s"
         [JStr topic; JStr (exn_text exc)];;
       raise exc).

(** ** Consumer *)

(** A [KafkaConsumer] object: what it is subscribed to and what the
    broker still has in store for it. *)
Record Consumer : Type := MkConsumer {
  c_topic : string;
  c_group_id : string;
  c_feed : list arrival }.

Definition topic_of (w : World) (topic : string) : Topic :=
  default empty_topic (b_topics (w_broker w) !! topic).

(** Where a consumer of a group without committed offsets starts:
    [latest] skips the log as it stands, [earliest] replays it first. *)
Definition initial_feed (reset : offset_reset) (t : Topic) : list arrival :=
  match reset with
  | latest => t_feed t
  | earliest => Arrival 0 (Records (t_backlog t)) :: t_feed t
  end.

(** [KafkaConsumer(topic, bootstrap_servers=..., group_id=...,
    auto_offset_reset=..., ...)] *)
Definition KafkaConsumer (topic bootstrap_servers group_id : string)
    (auto_offset_reset : offset_reset) : M Consumer :=
  emit (KafkaConsumer_new topic bootstrap_servers group_id auto_offset_reset);;
  w ← get;
  match b_subscribe (w_broker w) with
  | Some e => raise e
  | None =>
      modify (set_open (S (w_open w)));;
      mret (MkConsumer topic group_id
              (initial_feed auto_offset_reset (topic_of w topic)))
  end.

(** [value_deserializer=lambda b: json.loads(b.decode("utf-8"))] *)
Definition value_deserializer (b : wire) : outcome json :=
  match b with
  | Encoded v => Returned v
  | Garbage _ => Raised (ValueError "JSONDecodeError")
  end.

(** kafka-python deserializes every fetched record before [poll] hands
    any of them over; an exception of the deserializer is raised out of
    [poll]. *)
Fixpoint deserialize_partition (records : list wire) : outcome (list json) :=
  match records with
  | [] => Returned []
  | b :: rest =>
      match value_deserializer b with
      | Raised e => Raised e
      | Returned v =>
          match deserialize_partition rest with
          | Raised e => Raised e
          | Returned vs => Returned (v :: vs)
          end
      end
  end.

Fixpoint deserialize_records (partitions : list (list wire))
    : outcome (list (list json)) :=
  match partitions with
  | [] => Returned []
  | p :: rest =>
      match deserialize_partition p with
      | Raised e => Raised e
      | Returned vs =>
          match deserialize_records rest with
          | Raised e => Raised e
          | Returned vss => Returned (vs :: vss)
          end
      end
  end.

Definition with_feed (feed : list arrival) (c : Consumer) : Consumer :=
  MkConsumer (c_topic c) (c_group_id c) feed.

Definition advance (ms : N) (w : World) : World :=
  set_now (w_now w + Z.of_N ms) w.

(** [consumer.poll(timeout_ms=...)]: waits for the next arrival, at most
    [timeout_ms]; with nothing in time it returns the empty dict.  The
    clock moves by the time waited. *)
Definition poll (c : Consumer) (timeout_ms : N)
    : M (list (list json) * Consumer) :=
  λ w,
    let said r := record (Consumer_poll (c_group_id c) timeout_ms r) in
    match c_feed c with
    | [] => (Returned ([], c), said (Returned []) (advance timeout_ms w))
    | a :: rest =>
        if (a_delay a <=? timeout_ms)%N then
          let w1 := advance (a_delay a) w in
          match a_fetch a with
          | Failure e => (Raised e, said (Raised e) w1)
          | Records partitions =>
              match deserialize_records partitions with
              | Raised e => (Raised e, said (Raised e) w1)
              | Returned records =>
                  (Returned (records, with_feed rest c),
                   said (Returned records) w1)
              end
          end
        else
          (Returned ([], with_feed
                           (Arrival (a_delay a - timeout_ms) (a_fetch a) :: rest) c),
           said (Returned []) (advance timeout_ms w))
    end.

(** [consumer.close()] *)
Definition close (c : Consumer) : M unit :=
  emit (Consumer_close (c_group_id c));;
  modify (λ w, set_open (pred (w_open w)) w).

(** [isinstance(msg, dict) and msg.get("correlation_id") == correlation_id] *)
Definition is_match (correlation_id : string) (msg : json) : bool :=
  match msg with
  | JDict fields =>
      match fields !! "correlation_id" with
      | Some (JStr s) => bool_decide (s = correlation_id)
      | _ => false
      end
  | _ => false
  end.

(** [for record in partition_records: ...], [Some msg] when the body
    reaches [return msg]. *)
Fixpoint scan_partition (correlation_id : string)
    (partition_records : list json) : option json :=
  match partition_records with
  | [] => None
  | msg :: rest =>
      if is_match correlation_id msg then Some msg
      else scan_partition correlation_id rest
  end.

(** [for partition_records in records.values(): ...] *)
Fixpoint scan_records (correlation_id : string)
    (records : list (list json)) : option json :=
  match records with
  | [] => None
  | partition_records :: rest =>
      match scan_partition correlation_id partition_records with
      | Some msg => Some msg
      | None => scan_records correlation_id rest
      end
  end.

Definition POLL_TIMEOUT_MS : N := 1000.

(** What bounds the loop: arrivals still to come, and milliseconds to the
    deadline. *)
Definition fuel_left (deadline : Z) (c : Consumer) (w : World) : nat :=
  (length (c_feed c) + Z.to_nat (deadline - w_now w))%nat.

Definition inspect {A} (a : A) : {b | a = b} := exist _ a eq_refl.

(** The [while time.time() < deadline:] loop of [consume_one].  [Some msg]
    is the [return msg] inside the loop, [None] is the loop running to its
    end. *)
Equations? poll_loop (correlation_id : string) (deadline : Z)
    (c : Consumer) (w : World) : outcome (option json) * World
    by wf (fuel_left deadline c w) lt :=
  poll_loop correlation_id deadline c w with decide (w_now w < deadline) := {
    | right _ => (Returned None, w)
    | left Hlt with inspect (poll c POLL_TIMEOUT_MS w) := {
        | exist _ (Raised e, w1) _ => (Raised e, w1)
        | exist _ (Returned (records, c1), w1) Hpoll
            with scan_records correlation_id records := {
            | Some msg =>
                (logger INFO "Received matching response for correlation_id=%s"
                   [JStr correlation_id];;
                 mret (Some msg)) w1
            | None => poll_loop correlation_id deadline c1 w1 } } }.
Proof.
  clear poll_loop. revert Hpoll.
  unfold poll, fuel_left, POLL_TIMEOUT_MS.
  destruct (c_feed c) as [|[d f] rest] eqn:Hfeed; cbn [a_delay a_fetch].
  - intros [= <- <- <-]. rewrite Hfeed. cbn. lia.
  - destruct (N.leb_spec d 1000).
    + destruct f as [ps|e]; [|discriminate].
      destruct (deserialize_records ps); [|discriminate].
      intros [= <- <- <-]. cbn. lia.
    + intros [= <- <- <-]. cbn. lia.
Qed.

(** [KafkaClient.consume_one] *)
Definition consume_one (topic correlation_id : string) (timeout : Z)
    (group_id : string) : M (option json) :=
  self ← (w ← get; mret (w_kafka w));
  consumer ← KafkaConsumer topic (broker self)
                (group_id +:+ "-" +:+ correlation_id) latest;
  now ← time_time;
  let deadline := now + timeout * 1000 in
  found ← try_finally (poll_loop correlation_id deadline consumer)
                      (close consumer);
  match found with
  | Some msg => mret (Some msg)
  | None =>
      logger WARNING
        "Timed out after %ds waiting for correlation_id=%s on topic %s"
        [JInt timeout; JStr correlation_id; JStr topic];;
      mret None
  end.

End kafka_client.

(** * Python built-ins used by the web layer *)

(** A character is a code point below 256.  [str.isspace] holds there for
    tab to carriage return, the four separators 28 to 31, the space, NEL
    and the no-break space. *)
Definition py_isspace (c : ascii) : bool :=
  let n := N_of_ascii c in
  ((9 <=? n) && (n <=? 13) || (28 <=? n) && (n <=? 32)
   || (n =? 133) || (n =? 160))%N.

Fixpoint lstrip (s : string) : string :=
  match s with
  | String c rest => if py_isspace c then lstrip rest else s
  | EmptyString => EmptyString
  end.

Definition rstrip (s : string) : string := String.rev (lstrip (String.rev s)).

(** [s.strip()] *)
Definition strip (s : string) : string := rstrip (lstrip s).

Definition digit_value (c : ascii) : option Z :=
  let n := N_of_ascii c in
  if ((48 <=? n) && (n <=? 57))%N then Some (Z.of_N n - 48) else None.

(** The digits of a base-10 literal; one underscore may sit between two
    digits. *)
Fixpoint int_digits (acc : Z) (after_underscore : bool) (s : string)
    : option Z :=
  match s with
  | EmptyString => if after_underscore then None else Some acc
  | String c rest =>
      match digit_value c with
      | Some d => int_digits (10 * acc + d) false rest
      | None =>
          if Ascii.eqb c "_"%char && negb after_underscore
          then int_digits acc true rest
          else None
      end
  end.

Definition int_unsigned (s : string) : option Z :=
  match s with
  | String c _ =>
      match digit_value c with
      | Some _ => int_digits 0 false s
      | None => None
      end
  | EmptyString => None
  end.

(** [int(s)] for a [str]: surrounding whitespace is dropped, a sign may
    come first, the rest are the digits; anything else is a
    [ValueError] (its message, which goes on to quote [s], is cut
    short). *)
Definition int (s : string) : outcome Z :=
  let body := strip s in
  let parsed :=
    match body with
    | String "-"%char rest => Z.opp <$> int_unsigned rest
    | String "+"%char rest => int_unsigned rest
    | _ => int_unsigned body
    end in
  match parsed with
  | Some n => Returned n
  | None => Raised (ValueError "invalid literal for int() with base 10")
  end.

Definition is_ValueError (e : exn) : bool :=
  match e with ValueError _ => true | _ => false end.

(** * app.py *)

Module app.

Import kafka_client.

Inductive http_method : Type := GET | POST.

(** [flask.request]: the method and the form fields. *)
Record Request : Type := MkRequest {
  method : http_method;
  form : gmap string string }.

(** What a view returns: [jsonify(body), status] or a rendered page. *)
Inductive Response : Type :=
| jsonify (body : json) (status : Z)
| render_template (name page : string).

Definition error_body (text : string) : json :=
  JDict {[ "error" := JStr text ]}.


(** [@app.route("/")] *)
Definition index : M Response := mret (render_template "index.html" "home").

(** [@app.route("/index-papers", methods=["POST"])] *)
Definition index_papers (request : Request) : M Response :=
  let scholar_url := strip (default "" (form request !! "scholar_url")) in
  if bool_decide (scholar_url = "") then
    mret (jsonify (error_body "No URL provided") 400)
  else
    correlation_id ← uuid4;
    let message :=
      JDict (<["correlation_id" := JStr correlation_id]>
             (<["scholar_url" := JStr scholar_url]> ∅)) in
    request_topic ← getenv "KAFKA_TOPIC_SEARCH_REQUEST" "search-request";
    produce request_topic message;;
    response_topic ← getenv "KAFKA_TOPIC_SEARCH_RESPONSE" "search-response";
    timeout_text ← getenv "KAFKA_RESPONSE_TIMEOUT" "120";
    timeout ← (λ w, (int timeout_text, w));
    response ← consume_one response_topic correlation_id timeout "flask-client";
    match response with
    | None =>
        mret (jsonify (error_body "Timed out waiting for indexing response") 504)
    | Some _ =>
        modify (λ w, set_session
                       (<["correlation_id" := correlation_id]> (w_session w)) w);;
        mret (jsonify (JDict {[ "status" := JStr "ok" ]}) 200)
    end.

(** [@app.route("/search", methods=["GET", "POST"])] *)
Definition search (request : Request) : M Response :=
  match method request with
  | GET => mret (render_template "index.html" "search")
  | POST =>
      let term := strip (default "" (form request !! "term")) in
      if bool_decide (term = "") then
        mret (jsonify (error_body "No search term provided") 400)
      else
        correlation_id ← uuid4;
        let message :=
          JDict (<["correlation_id" := JStr correlation_id]>
                 (<["term" := JStr term]> ∅)) in
        request_topic ←
          getenv "KAFKA_TOPIC_SEARCH_TERM_REQUEST" "search-term-request";
        produce request_topic message;;
        response_topic ←
          getenv "KAFKA_TOPIC_SEARCH_TERM_RESPONSE" "search-term-response";
        timeout_text ← getenv "KAFKA_RESPONSE_TIMEOUT" "120";
        timeout ← (λ w, (int timeout_text, w));
        response ←
          consume_one response_topic correlation_id timeout "flask-client";
        match response with
        | None =>
            mret (jsonify (error_body "Timed out waiting for search response")
                    504)
        | Some body => mret (jsonify body 200)
        end
  end.

(** [int(request.form.get("n", 10))]: the default is already an [int]. *)
Definition form_n (request : Request) : outcome Z :=
  match form request !! "n" with
  | Some text => int text
  | None => Returned 10
  end.

(** [@app.route("/topn", methods=["GET", "POST"])] *)
Definition topn (request : Request) : M Response :=
  match method request with
  | GET => mret (render_template "index.html" "topn")
  | POST =>
      match form_n request with
      | Raised e =>
          if is_ValueError e
          then mret (jsonify (error_body "N must be an integer") 400)
          else raise e
      | Returned n =>
          correlation_id ← uuid4;
          let message :=
            JDict (<["correlation_id" := JStr correlation_id]>
                   (<["n" := JInt n]> ∅)) in
          request_topic ← getenv "KAFKA_TOPIC_TOPN_REQUEST" "topn-request";
          produce request_topic message;;
          response_topic ← getenv "KAFKA_TOPIC_TOPN_RESPONSE" "topn-response";
          timeout_text ← getenv "KAFKA_RESPONSE_TIMEOUT" "120";
          timeout ← (λ w, (int timeout_text, w));
          response ←
            consume_one response_topic correlation_id timeout "flask-client";
          match response with
          | None =>
              mret (jsonify (error_body "Timed out waiting for top-N response")
                      504)
          | Some body => mret (jsonify body 200)
          end
      end
  end.

End app.

(** * gcp_config.py *)

Module gcp_config.

(** The module-level constants, set when the module is imported. *)
Record Config : Type := MkConfig {
  GCP_PROJECT_ID : string;
  GCP_REGION : string;
  DATAPROC_CLUSTER_NAME : string;
  DATAPROC_JAR_URI : string;
  DATAPROC_MAIN_CLASS : string }.


(** [[name for name, value in pairs if not value]] *)
Definition missing_names (pairs : list (string * string)) : list string :=
  (filter (λ p, p.2 = "") pairs).*1.

(** [", ".join(names)] *)
Fixpoint join_comma (names : list string) : string :=
  match names with
  | [] => ""
  | [name] => name
  | name :: rest => name +:+ ", " +:+ join_comma rest
  end.

(** [_validate_config] *)
Definition _validate_config (cfg : Config) : M unit :=
  let missing :=
    missing_names [("GCP_PROJECT_ID", GCP_PROJECT_ID cfg);
                   ("DATAPROC_CLUSTER_NAME", DATAPROC_CLUSTER_NAME cfg)] in
  match missing with
  | [] => mret tt
  | _ =>
      raise (EnvironmentError
               ("Missing required GCP environment variables: "
                +:+ join_comma missing))
  end.

Definition JList_str (args : option (list string)) : json :=
  match args with
  | Some l => JList (JStr <$> l)
  | None => JNull
  end.

(** [trigger_dataproc_job] *)
Definition trigger_dataproc_job (cfg : Config)
    (job_args : option (list string)) : M string :=
  _validate_config cfg;;
  logger INFO
    "trigger_dataproc_job called — project=%s, region=%s, cluster=%s, args=%s"
    [JStr (GCP_PROJECT_ID cfg); JStr (GCP_REGION cfg);
     JStr (DATAPROC_CLUSTER_NAME cfg); JList_str job_args];;
  let placeholder_job_id := "dataproc-job-not-yet-implemented" in
  logger WARNING "Dataproc submission is a placeholder — returning %s"
    [JStr placeholder_job_id];;
  mret placeholder_job_id.

End gcp_config.

(** * Vocabulary of the statements

    Nothing below changes the model: these are the observations the
    theorems are stated with, and the worlds their examples run in. *)

Section vocabulary.

Import kafka_client app.

(** The events a call appended to the trace. *)
Definition since (w w' : World) : list event :=
  drop (length (w_trace w)) (w_trace w').

(** [w'] is [w] later: the clock may have moved and [new] was appended to
    the trace; nothing else changed. *)
Definition extends (w w' : World) (new : list event) : Prop :=
  w' = MkWorld (w_now w') (w_environ w) (w_uuid w) (w_broker w) (w_kafka w)
         (w_session w) (w_open w) (w_trace w ++ new).

(** The messages that the polls recorded in a trace handed over, in the
    order the loops of [consume_one] visit them. *)
Fixpoint polled (trace : list event) : list json :=
  match trace with
  | [] => []
  | Consumer_poll _ _ (Returned records) :: rest => concat records ++ polled rest
  | _ :: rest => polled rest
  end.

(** The messages a topic delivers, in arrival order: the decoded records
    of each fetch, partition after partition.  A fetch that fails, or
    holds a record that does not decode, delivers nothing. *)
Definition delivered (f : fetch) : list json :=
  match f with
  | Records partitions =>
      match deserialize_records partitions with
      | Returned records => concat records
      | Raised _ => []
      end
  | Failure _ => []
  end.

Definition arrivals_of (feed : list arrival) : list json :=
  concat ((λ a, delivered (a_fetch a)) <$> feed).

(** What a poll event records of the outcome of [poll]. *)
Definition poll_result {A} (o : outcome (list (list json) * A))
    : outcome (list (list json)) :=
  match o with
  | Returned (records, _) => Returned records
  | Raised e => Raised e
  end.

(** The world after the line logged on a match. *)
Definition matched (correlation_id : string) (w : World) : World :=
  record (Log INFO "Received matching response for correlation_id=%s"
            [JStr correlation_id]) w.

(** What the loop may append: polls of its own consumer with the fixed
    slice, and the line logged on a match. *)
Definition loop_event (group_id : string) (ev : event) : Prop :=
  match ev with
  | Consumer_poll g slice _ => g = group_id ∧ slice = POLL_TIMEOUT_MS
  | Log INFO _ _ => True
  | _ => False
  end.

(** The warning logged when the loop ends without a match. *)
Definition timed_out (timeout : Z) (correlation_id topic : string) : event :=
  Log WARNING "Timed out after %ds waiting for correlation_id=%s on topic %s"
    [JInt timeout; JStr correlation_id; JStr topic].

(** The world after [consumer.close()]. *)
Definition closed (group_id : string) (w : World) : World :=
  set_open (pred (w_open w)) (record (Consumer_close group_id) w).

(** ** Scenarios *)

Definition reply (correlation_id status : string) : json :=
  JDict (<["correlation_id" := JStr correlation_id]>
         (<["status" := JStr status]> ∅)).

Definition quiet_broker (topics : gmap string Topic) : Broker :=
  MkBroker None (Ack 0 0) None topics.

Definition world_with (environ : gmap string string) (b : Broker) : World :=
  MkWorld 0 environ "X" b (MkKafkaClient "localhost:9092" false) ∅ 0 [].

(** Replies for A and B, then for X and C, on two partitions of one
    topic; an older reply for X is already in the log. *)
Definition stream_ABXC : Topic :=
  MkTopic [[Encoded (reply "X" "stale")]]
    [Arrival 300 (Records [[Encoded (reply "A" "ok"); Encoded (reply "B" "ok")];
                           [Encoded JNull]]);
     Arrival 2500 (Records [[Encoded (reply "X" "ok"); Encoded (reply "C" "ok")]])].

Definition world_ABXC : World :=
  world_with ∅ (quiet_broker {[ "search-response" := stream_ABXC ]}).

(** ** The subscription is released *)

Definition is_log (ev : event) : Prop :=
  match ev with Log _ _ _ => True | _ => False end.

(** A topic on which the second poll fails. *)
Definition world_failing : World :=
  world_with ∅ (quiet_broker {[ "search-response" :=
    MkTopic [] [Arrival 300 (Records [[Encoded (reply "A" "ok")]]);
                Arrival 200 (Failure (KafkaError "broker gone"))] ]}).

(** ** The timeout window *)

(** Would the loop accept this record? *)
Definition wire_matches (correlation_id : string) (b : wire) : bool :=
  match value_deserializer b with
  | Returned v => is_match correlation_id v
  | Raised _ => false
  end.

Definition fetch_matches (correlation_id : string) (f : fetch) : bool :=
  match f with
  | Records partitions => existsb (existsb (wire_matches correlation_id)) partitions
  | Failure _ => false
  end.

(** Does a matching message ever arrive? *)
Definition ever_matches (correlation_id : string) (feed : list arrival) : bool :=
  existsb (λ a, fetch_matches correlation_id (a_fetch a)) feed.




(** ** Messages that are not response envelopes *)

(** A decoded message that carries a [correlation_id] field. *)
Definition has_correlation_id (msg : json) : bool :=
  match msg with
  | JDict fields => bool_decide (is_Some (fields !! "correlation_id"))
  | _ => false
  end.

(** The topic without the records that decode to something that is not a
    mapping or has no [correlation_id]; bytes that do not decode stay. *)
Definition is_envelope (b : wire) : bool :=
  match b with
  | Encoded v => has_correlation_id v
  | Garbage _ => true
  end.

Definition prune_fetch (f : fetch) : fetch :=
  match f with
  | Records partitions => Records (List.filter is_envelope <$> partitions)
  | Failure e => Failure e
  end.

Definition prune_feed (feed : list arrival) : list arrival :=
  (λ a, Arrival (a_delay a) (prune_fetch (a_fetch a))) <$> feed.

Definition prune_topic (t : Topic) : Topic :=
  MkTopic (t_backlog t) (prune_feed (t_feed t)).

Definition prune_world (w : World) : World :=
  set_topics (prune_topic <$> b_topics (w_broker w)) w.

(** Bytes that are not JSON, 100 ms before the reply for X. *)
Definition world_poisoned : World :=
  world_with ∅ (quiet_broker {[ "search-response" :=
    MkTopic [] [Arrival 100 (Records [[Garbage "not json"]]);
                Arrival 100 (Records [[Encoded (reply "X" "ok")]])] ]}).

(** The same topic without those bytes. *)
Definition world_clean : World :=
  world_with ∅ (quiet_broker {[ "search-response" :=
    MkTopic [] [Arrival 100 (Records [[]]);
                Arrival 100 (Records [[Encoded (reply "X" "ok")]])] ]}).

(** What the broker will do to the next publish: the exception it ends
    with, if any.  The producer is only connected when there is none yet. *)
Definition publish_fails (w : World) : option exn :=
  match (if _producer (w_kafka w) then None else b_connect (w_broker w)) with
  | Some e => Some e
  | None =>
      match b_send (w_broker w) with
      | SendFails e => Some e
      | Ack _ _ => None
      end
  end.

(** Events of the producer side and of the consumer side. *)
Definition producer_event (ev : event) : Prop :=
  match ev with
  | KafkaProducer_new _ | Producer_send _ _ | Log _ _ _ => True
  | _ => False
  end.

Definition consumer_event (ev : event) : Prop :=
  match ev with
  | KafkaConsumer_new _ _ _ _ | Consumer_poll _ _ _ | Consumer_close _ => True
  | _ => False
  end.

(** The line logged when the broker has acknowledged a message. *)
Definition acked (topic : string) (ev : event) : Prop :=
  ∃ partition offset,
    ev = Log INFO "Produced to %s [partition %d offset %d]"
           [JStr topic; JInt partition; JInt offset].

(** [w'] is [w] after some calls: the environment, the uuid source, the
    broker, the broker address of the client and the count of open
    consumers are the same, and [new] was appended to the trace. *)
Definition evolves (w w' : World) (new : list event) : Prop :=
  w_environ w' = w_environ w ∧ w_uuid w' = w_uuid w
  ∧ w_broker w' = w_broker w ∧ broker (w_kafka w') = broker (w_kafka w)
  ∧ w_open w' = w_open w ∧ w_trace w' = (w_trace w ++ new)%list.

(** ** Computations that do not see the log of a topic *)

(** The same world, with nothing in the log of any topic when a consumer
    subscribes; what arrives afterwards is untouched. *)
Definition forget_backlog (t : Topic) : Topic := MkTopic [] (t_feed t).

Definition forget_backlogs (w : World) : World :=
  set_topics (forget_backlog <$> b_topics (w_broker w)) w.

(** [m] runs the same way whatever the logs hold when it starts. *)
Definition backlog_blind {A} (m : M A) : Prop :=
  ∀ w, m (forget_backlogs w) = ((m w).1, forget_backlogs (m w).2).

(** ** The call pattern the three views share *)

(** Publish [message] on the topic named by [request_var], then listen on
    the topic named by [response_var] and hand the result to [k]. *)
Definition round_trip (request_var request_default : string)
    (response_var response_default : string) (correlation_id : string)
    (message : json) (k : option json → M Response) : M Response :=
  request_topic ← getenv request_var request_default;
  produce request_topic message;;
  response_topic ← getenv response_var response_default;
  timeout_text ← getenv "KAFKA_RESPONSE_TIMEOUT" "120";
  timeout ← (λ w, (int timeout_text, w));
  response ← consume_one response_topic correlation_id timeout "flask-client";
  k response.

Definition index_papers_done (correlation_id : string)
    (response : option json) : M Response :=
  match response with
  | None =>
      mret (jsonify (error_body "Timed out waiting for indexing response") 504)
  | Some _ =>
      modify (λ w, set_session
                     (<["correlation_id" := correlation_id]> (w_session w)) w);;
      mret (jsonify (JDict {[ "status" := JStr "ok" ]}) 200)
  end.

Definition search_done (response : option json) : M Response :=
  match response with
  | None =>
      mret (jsonify (error_body "Timed out waiting for search response") 504)
  | Some body => mret (jsonify body 200)
  end.

Definition topn_done (response : option json) : M Response :=
  match response with
  | None =>
      mret (jsonify (error_body "Timed out waiting for top-N response") 504)
  | Some body => mret (jsonify body 200)
  end.

Definition index_papers_message (correlation_id scholar_url : string) : json :=
  JDict (<["correlation_id" := JStr correlation_id]>
         (<["scholar_url" := JStr scholar_url]> ∅)).

Definition search_message (correlation_id term : string) : json :=
  JDict (<["correlation_id" := JStr correlation_id]>
         (<["term" := JStr term]> ∅)).

Definition topn_message (correlation_id : string) (n : Z) : json :=
  JDict (<["correlation_id" := JStr correlation_id]> (<["n" := JInt n]> ∅)).

Definition scholar_url_of (request : Request) : string :=
  strip (default "" (form request !! "scholar_url")).

Definition term_of (request : Request) : string :=
  strip (default "" (form request !! "term")).

(** ** Validation before any broker interaction *)

Definition post (field value : string) : Request :=
  MkRequest POST {[ field := value ]}.


(** ** A failed publish *)

(** The call ended with exception [e] having touched the producer side
    only: no consumer was created, polled or closed. *)
Definition fails_before_listening (e : exn) (w : World)
    (r : outcome Response * World) : Prop :=
  r.1 = Raised e
  ∧ Forall (λ ev, producer_event ev ∧ ¬ consumer_event ev) (since w r.2)
  ∧ w_open r.2 = w_open w.

(** A broker that accepts the connection and then refuses the message. *)
Definition world_unreachable : World :=
  world_with ∅ (MkBroker None (SendFails (KafkaError "NoBrokersAvailable"))
                  None ∅).

(** ** Publish, then subscribe from the latest offset *)

(** What may follow the creation of the consumer. *)
Definition listening_event (ev : event) : Prop :=
  match ev with
  | Consumer_poll _ _ _ | Consumer_close _ | Log _ _ _ => True
  | _ => False
  end.

(** The events of a call fall into two phases.  The first holds producer
    events only.  The second, when there is one, starts with the creation
    of a consumer that reads from the latest offset and holds no other
    creation and no publish; and by then the request has been sent and
    its acknowledgement logged, at the very end of the first phase. *)
Definition publish_then_listen (new : list event) : Prop :=
  ∃ published listening,
    new = (published ++ listening)%list
    ∧ Forall producer_event published
    ∧ (listening = []
       ∨ ∃ topic servers g rest before request_topic message ack,
           listening = KafkaConsumer_new topic servers g latest :: rest
           ∧ Forall listening_event rest
           ∧ published
             = (before ++ [Producer_send request_topic message; ack])%list
           ∧ acked request_topic ack).

(** A continuation that leaves the trace alone. *)
Definition silent (k : option json → M Response) : Prop :=
  ∀ response w, w_trace (k response w).2 = w_trace w.

(** The race: the reply for X is already in the log when the consumer is
    created and nothing arrives afterwards.  The call times out. *)
Definition world_early_reply : World :=
  world_with {[ "KAFKA_RESPONSE_TIMEOUT" := "3" ]}
    (quiet_broker {[ "search-response" :=
       MkTopic [[Encoded (reply "X" "ok")]] [] ]}).

(** ** Configuration *)



(** ** What decides a call *)






(** Events of a publish. *)
Definition is_publish (ev : event) : bool :=
  match ev with
  | KafkaProducer_new _ | Producer_send _ _ => true
  | _ => false
  end.

Definition is_construction (ev : event) : bool :=
  match ev with KafkaProducer_new _ => true | _ => false end.

(** Will the next publish have a producer: one is cached, or the
    constructor succeeds. *)
Definition connects (w : World) : bool :=
  _producer (w_kafka w)
  || match b_connect (w_broker w) with None => true | Some _ => false end.

Definition is_send (ev : event) : bool :=
  match ev with Producer_send _ _ => true | _ => false end.

Definition is_error_log (ev : event) : bool :=
  match ev with Log ERROR _ _ => true | _ => false end.

(** ** What a view makes of a call *)


(** The reply for X reaches each response topic 250 ms after the
    subscription; the search-term topic first carries a reply for A. *)
Definition world_replies : World :=
  world_with ∅ (quiet_broker
    {[ "search-response" :=
         MkTopic [] [Arrival 250 (Records [[Encoded (reply "X" "indexed")]])];
       "search-term-response" :=
         MkTopic [] [Arrival 100 (Records [[Encoded (reply "A" "other")]]);
                     Arrival 150 (Records [[Encoded (reply "X" "found")]])];
       "topn-response" :=
         MkTopic [] [Arrival 250 (Records [[Encoded (reply "X" "ok")]])] ]}).

(** What a response says about the call that gave it. *)
Definition status_of (r : Response) : option Z :=
  match r with
  | jsonify _ status => Some status
  | render_template _ _ => None
  end.

(** The events one call of a view may leave: the producer is created at
    the address of the client, the one message goes to the request topic,
    the consumer is created on the response topic at the same address,
    in its group and from the latest offset, and is the one polled and
    closed. *)
Definition call_event (request_topic : string) (message : json)
    (response_topic address group : string) (ev : event) : Prop :=
  match ev with
  | KafkaProducer_new servers => servers = address
  | Producer_send topic value => topic = request_topic ∧ value = message
  | KafkaConsumer_new topic servers g reset =>
      topic = response_topic ∧ servers = address ∧ g = group ∧ reset = latest
  | Consumer_poll g _ _ | Consumer_close g => g = group
  | Dataproc_submit _ => False
  | Log _ _ _ => True
  end.

Definition is_subscription (ev : event) : bool :=
  match ev with KafkaConsumer_new _ _ _ _ => true | _ => false end.

(** The answer 200. *)
Definition answered_ok (o : outcome Response) : bool :=
  match o with
  | Returned (jsonify _ status) => bool_decide (status = 200)
  | _ => false
  end.

(** What the answer of a view with status [status] and body [body] says
    about the call: 400, nothing was done; 504, the call waited until its
    deadline and logged the warning; 200, a message for the id of the
    call arrived on the response topic, and [relayed] tells whether it is
    the body. *)
Definition accounts_for (response_var response_default : string)
    (relayed : bool) (w w' : World) (body : json) (status : Z) : Prop :=
  let topic := default response_default (w_environ w !! response_var) in
  (status = 400 ∧ w' = w)
  ∨ (status = 504
     ∧ ∃ timeout,
         int (default "120" (w_environ w !! "KAFKA_RESPONSE_TIMEOUT"))
         = Returned timeout
         ∧ w_now w + timeout * 1000 ≤ w_now w'
         ∧ last (w_trace w') = Some (timed_out timeout (w_uuid w) topic))
  ∨ (status = 200
     ∧ ∃ msg,
         is_match (w_uuid w) msg = true
         ∧ msg ∈ arrivals_of (t_feed (topic_of w topic))
         ∧ body = (if relayed then msg else JDict {[ "status" := JStr "ok" ]})).


(** A continuation that leaves the client alone. *)
Definition keeps_client (k : option json → M Response) : Prop :=
  ∀ response w, w_kafka (k response w).2 = w_kafka w.

End vocabulary.

(** * Properties of the listener, [consume_one] *)

Section listener.

Import kafka_client.

Lemma extends_refl w : extends w w [].
Proof. unfold extends. rewrite app_nil_r. by destruct w. Qed.

Lemma extends_trans w1 w2 w3 l1 l2 :
  extends w1 w2 l1 → extends w2 w3 l2 → extends w1 w3 (l1 ++ l2).
Proof.
  unfold extends. intros H12 H23. rewrite H23. cbn.
  rewrite H12. cbn. by rewrite app_assoc.
Qed.

Lemma extends_since w w' new : extends w w' new → since w w' = new.
Proof.
  unfold extends, since. intros ->. cbn. by rewrite drop_app_length.
Qed.

Lemma since_self w : since w w = [].
Proof. unfold since. apply drop_all. Qed.

Lemma extends_record w ev : extends w (record ev w) [ev].
Proof. reflexivity. Qed.

Lemma poll_extends c slice w o w1 :
  poll c slice w = (o, w1) →
  extends w w1 [Consumer_poll (c_group_id c) slice (poll_result o)]
  ∧ w_now w ≤ w_now w1 ≤ w_now w + Z.of_N slice.
Proof.
  unfold poll. destruct (c_feed c) as [|[d f] rest]; cbn [a_delay a_fetch].
  - intros [= <- <-]. split; [reflexivity | cbn; lia].
  - destruct (N.leb_spec d slice).
    + destruct f as [ps|e]; [destruct (deserialize_records ps)|];
        intros [= <- <-]; (split; [reflexivity | cbn; lia]).
    + intros [= <- <-]. split; [reflexivity | cbn; lia].
Qed.

Lemma poll_group c slice w records c1 w1 :
  poll c slice w = (Returned (records, c1), w1) → c_group_id c1 = c_group_id c.
Proof.
  unfold poll. destruct (c_feed c) as [|[d f] rest]; cbn [a_delay a_fetch].
  - by intros [= _ <- _].
  - destruct (d <=? slice)%N.
    + destruct f as [ps|e]; [destruct (deserialize_records ps)|];
        by intros [= _ <- _].
    + by intros [= _ <- _].
Qed.

Section loop.

Context (correlation_id : string) (deadline : Z).

(** The loop, case by case. *)
Lemma poll_loop_cases
    (P : Consumer → World → outcome (option json) * World → Prop) :
  (∀ c w, ¬ w_now w < deadline → P c w (Returned None, w)) →
  (∀ c w e w1, w_now w < deadline →
     poll c POLL_TIMEOUT_MS w = (Raised e, w1) → P c w (Raised e, w1)) →
  (∀ c w records c1 w1 msg, w_now w < deadline →
     poll c POLL_TIMEOUT_MS w = (Returned (records, c1), w1) →
     scan_records correlation_id records = Some msg →
     P c w (Returned (Some msg), matched correlation_id w1)) →
  (∀ c w records c1 w1, w_now w < deadline →
     poll c POLL_TIMEOUT_MS w = (Returned (records, c1), w1) →
     scan_records correlation_id records = None →
     P c1 w1 (poll_loop correlation_id deadline c1 w1) →
     P c w (poll_loop correlation_id deadline c1 w1)) →
  ∀ c w, P c w (poll_loop correlation_id deadline c w).
Proof.
  intros Hexit Hraise Hfound Hnext c w.
  funelim (poll_loop correlation_id deadline c w).
  - by apply Hexit.
  - by apply Hraise.
  - by apply (Hfound c w records c1 w1 msg).
  - apply (Hnext c w records c1 w1); [done..|]. by apply H.
Qed.

(** One turn of the loop, as an equation. *)
Lemma poll_loop_step c w :
  poll_loop correlation_id deadline c w =
  if decide (w_now w < deadline) then
    match poll c POLL_TIMEOUT_MS w with
    | (Raised e, w1) => (Raised e, w1)
    | (Returned (records, c1), w1) =>
        match scan_records correlation_id records with
        | Some msg => (Returned (Some msg), matched correlation_id w1)
        | None => poll_loop correlation_id deadline c1 w1
        end
    end
  else (Returned None, w).
Proof.
  revert c w.
  apply (poll_loop_cases (λ c w r, r =
    if decide (w_now w < deadline) then
      match poll c POLL_TIMEOUT_MS w with
      | (Raised e, w1) => (Raised e, w1)
      | (Returned (records, c1), w1) =>
          match scan_records correlation_id records with
          | Some msg => (Returned (Some msg), matched correlation_id w1)
          | None => poll_loop correlation_id deadline c1 w1
          end
      end
    else (Returned None, w))).
  - intros c w Hge. by rewrite decide_False.
  - intros c w e w1 Hlt Hpoll. by rewrite decide_True, Hpoll.
  - intros c w records c1 w1 msg Hlt Hpoll Hscan.
    by rewrite decide_True, Hpoll, Hscan.
  - intros c w records c1 w1 Hlt Hpoll Hscan _.
    by rewrite decide_True, Hpoll, Hscan.
Qed.

Lemma scan_partition_find records :
  scan_partition correlation_id records
  = List.find (is_match correlation_id) records.
Proof.
  induction records as [|msg rest IH]; cbn; [done|].
  by destruct (is_match correlation_id msg).
Qed.

Lemma find_app {A} (f : A → bool) l1 l2 :
  List.find f (l1 ++ l2)
  = match List.find f l1 with Some x => Some x | None => List.find f l2 end.
Proof.
  induction l1 as [|x l1 IH]; cbn; [done|]. by destruct (f x).
Qed.

Lemma scan_records_find records :
  scan_records correlation_id records
  = List.find (is_match correlation_id) (concat records).
Proof.
  induction records as [|p rest IH]; cbn; [done|].
  rewrite find_app, scan_partition_find, IH. done.
Qed.

Lemma find_is_match l msg :
  List.find (is_match correlation_id) l = Some msg →
  ∃ fields, msg = JDict fields
            ∧ fields !! "correlation_id" = Some (JStr correlation_id).
Proof.
  intros H. apply List.find_some in H as [_ H]. unfold is_match in H.
  destruct msg as [| | | | |?|fields]; try done. exists fields. split; [done|].
  destruct (fields !! "correlation_id") as [[]|]; try done.
  by apply bool_decide_eq_true in H as ->.
Qed.

(** What the loop leaves behind: only the clock and the trace change, the
    new events are its own, and its result is the first match among what
    its polls handed over. *)
Lemma poll_loop_trace c w :
  ∃ new,
    extends w (poll_loop correlation_id deadline c w).2 new
    ∧ Forall (loop_event (c_group_id c)) new
    ∧ ∀ r, (poll_loop correlation_id deadline c w).1 = Returned r →
           r = List.find (is_match correlation_id) (polled new).
Proof.
  revert c w.
  apply (poll_loop_cases (λ c w r,
    ∃ new, extends w r.2 new
           ∧ Forall (loop_event (c_group_id c)) new
           ∧ ∀ res, r.1 = Returned res →
                    res = List.find (is_match correlation_id) (polled new))).
  - intros c w _. exists []. split; [apply extends_refl|].
    split; [constructor|]. by intros res [= <-].
  - intros c w e w1 _ Hpoll. apply poll_extends in Hpoll as [Hext _].
    eexists. split; [exact Hext|]. split; [|done].
    repeat constructor.
  - intros c w records c1 w1 msg _ Hpoll Hscan.
    apply poll_extends in Hpoll as [Hext _].
    eexists. split.
    { eapply extends_trans; [exact Hext | apply extends_record]. }
    split; [repeat constructor|].
    intros res [= <-]. cbn. by rewrite app_nil_r, <- scan_records_find.
  - intros c w records c1 w1 _ Hpoll Hscan (new & Hext & Hev & Hres).
    pose proof (poll_group _ _ _ _ _ _ Hpoll) as Hg.
    apply poll_extends in Hpoll as [Hext1 _].
    eexists. split; [eapply extends_trans; [exact Hext1 | exact Hext]|].
    split.
    { constructor; [done|]. by rewrite <- Hg. }
    intros res Hr. cbn. rewrite find_app, <- scan_records_find, Hscan.
    by apply Hres.
Qed.

Lemma poll_arrivals c slice w records c1 w1 :
  poll c slice w = (Returned (records, c1), w1) →
  arrivals_of (c_feed c) = (concat records ++ arrivals_of (c_feed c1))%list.
Proof.
  unfold poll. destruct (c_feed c) as [|[d f] rest] eqn:Hfeed;
    cbn [a_delay a_fetch].
  - intros [= <- <- _]. by rewrite Hfeed.
  - destruct (d <=? slice)%N.
    + destruct f as [ps|e]; [|done].
      destruct (deserialize_records ps) as [vs|] eqn:Hd; [|done].
      intros [= <- <- _]. unfold arrivals_of. cbn. by rewrite Hd.
    + by intros [= <- <- _].
Qed.

(** What the polls of the loop hand over is what the topic delivers, from
    the start and in the same order. *)
Lemma poll_loop_arrivals c w :
  polled (since w (poll_loop correlation_id deadline c w).2)
  `prefix_of` arrivals_of (c_feed c).
Proof.
  revert c w.
  apply (poll_loop_cases (λ c w r,
    polled (since w r.2) `prefix_of` arrivals_of (c_feed c))).
  - intros c w _. cbn [snd]. rewrite since_self. apply prefix_nil.
  - intros c w e w1 _ Hpoll. apply poll_extends in Hpoll as [Hext _].
    cbn [snd]. rewrite (extends_since _ _ _ Hext). apply prefix_nil.
  - intros c w records c1 w1 msg _ Hpoll _.
    rewrite (poll_arrivals _ _ _ _ _ _ Hpoll).
    apply poll_extends in Hpoll as [Hext _]. cbn [snd]. unfold matched.
    rewrite (extends_since _ _ _
               (extends_trans _ _ _ _ _ Hext (extends_record _ _))).
    cbn. rewrite app_nil_r. by apply prefix_app_r.
  - intros c w records c1 w1 _ Hpoll _ IH.
    rewrite (poll_arrivals _ _ _ _ _ _ Hpoll).
    apply poll_extends in Hpoll as [Hext1 _].
    destruct (poll_loop_trace c1 w1) as (new & Hext & _).
    rewrite (extends_since _ _ _ Hext) in IH.
    rewrite (extends_since _ _ _ (extends_trans _ _ _ _ _ Hext1 Hext)).
    cbn. by apply prefix_app.
Qed.

(** The clock across the loop: it never runs backwards, a loop that ends
    without a match ends at or after the deadline, and no turn starts at
    or after the deadline, so the loop never ends a whole slice late. *)
Lemma poll_loop_clock c w :
  let r := poll_loop correlation_id deadline c w in
  w_now w ≤ w_now r.2
  ∧ (r.1 = Returned None → deadline ≤ w_now r.2)
  ∧ (w_now w < deadline + Z.of_N POLL_TIMEOUT_MS →
     w_now r.2 < deadline + Z.of_N POLL_TIMEOUT_MS).
Proof.
  revert c w.
  apply (poll_loop_cases (λ c w r,
    w_now w ≤ w_now r.2
    ∧ (r.1 = Returned None → deadline ≤ w_now r.2)
    ∧ (w_now w < deadline + Z.of_N POLL_TIMEOUT_MS →
       w_now r.2 < deadline + Z.of_N POLL_TIMEOUT_MS))).
  - intros c w Hge. cbn. lia.
  - intros c w e w1 Hlt Hpoll. apply poll_extends in Hpoll as [_ Ht].
    cbn [fst snd]. split; [lia|]. split; [done|lia].
  - intros c w records c1 w1 msg Hlt Hpoll _.
    apply poll_extends in Hpoll as [_ Ht]. cbn [fst snd matched record w_now].
    split; [lia|]. split; [done|lia].
  - intros c w records c1 w1 Hlt Hpoll _ (IH1 & IH2 & IH3).
    apply poll_extends in Hpoll as [_ Ht]. split; [lia|].
    split; [done|]. intros _. apply IH3. lia.
Qed.

End loop.

(** [consume_one] with the monad unfolded. *)
Lemma consume_one_unfold topic correlation_id timeout group_id w :
  consume_one topic correlation_id timeout group_id w =
  let g := group_id +:+ "-" +:+ correlation_id in
  let w0 := record (KafkaConsumer_new topic (broker (w_kafka w)) g latest) w in
  match b_subscribe (w_broker w) with
  | Some e => (Raised e, w0)
  | None =>
      let c := MkConsumer topic g (t_feed (topic_of w topic)) in
      let r := poll_loop correlation_id (w_now w + timeout * 1000) c
                 (set_open (S (w_open w)) w0) in
      match r.1 with
      | Raised e => (Raised e, closed g r.2)
      | Returned (Some msg) => (Returned (Some msg), closed g r.2)
      | Returned None =>
          (Returned None,
           record (timed_out timeout correlation_id topic) (closed g r.2))
      end
  end.
Proof.
  unfold consume_one, KafkaConsumer, close, logger, emit, modify, get, raise,
    time_time, try_finally, closed.
  unfold mbind, M_bind, bind, mret, M_ret, ret. cbn.
  destruct (b_subscribe (w_broker w)); [done|].
  unfold topic_of, set_open, record;
    cbn [w_now w_environ w_uuid w_broker w_kafka w_session w_open w_trace].
  destruct (poll_loop _ _ _ _) as [[[msg|]|e] w2]; done.
Qed.

(** A call whose consumer could be opened: the trace gains the opening,
    the events of the loop, the close and, on a timeout, the warning;
    the count of open consumers is back where it was. *)
Lemma consume_one_run topic correlation_id timeout group_id w :
  b_subscribe (w_broker w) = None →
  let r := consume_one topic correlation_id timeout group_id w in
  let g := group_id +:+ "-" +:+ correlation_id in
  let deadline := w_now w + timeout * 1000 in
  ∃ new,
    extends w r.2
      (KafkaConsumer_new topic (broker (w_kafka w)) g latest
         :: new ++ Consumer_close g
         :: match r.1 with
            | Returned None => [timed_out timeout correlation_id topic]
            | _ => []
            end)
    ∧ Forall (loop_event g) new
    ∧ (∀ res, r.1 = Returned res →
              res = List.find (is_match correlation_id) (polled new))
    ∧ (r.1 = Returned None → deadline ≤ w_now r.2)
    ∧ (0 ≤ timeout → w_now r.2 < deadline + Z.of_N POLL_TIMEOUT_MS)
    ∧ polled new `prefix_of` arrivals_of (t_feed (topic_of w topic)).
Proof.
  intros Hsub. cbv zeta. rewrite consume_one_unfold. cbv zeta. rewrite Hsub.
  set (g := group_id +:+ "-" +:+ correlation_id).
  set (opening := KafkaConsumer_new topic (broker (w_kafka w)) g latest).
  set (c := MkConsumer topic g (t_feed (topic_of w topic))).
  set (w1 := set_open (S (w_open w)) (record opening w)).
  set (deadline := w_now w + timeout * 1000).
  destruct (poll_loop_trace correlation_id deadline c w1)
    as (new & Hext & Hev & Hres).
  destruct (poll_loop_clock correlation_id deadline c w1) as (_ & Hlow & Hup).
  pose proof (poll_loop_arrivals correlation_id deadline c w1) as Harr.
  rewrite (extends_since _ _ _ Hext) in Harr.
  exists new.
  assert (Hw2 : ∀ tail w3,
    extends (closed g (poll_loop correlation_id deadline c w1).2) w3 tail →
    w_now w3 = w_now (poll_loop correlation_id deadline c w1).2 →
    extends w w3 (opening :: new ++ Consumer_close g :: tail)).
  { intros tail w3 H3 Ht. unfold extends in *. rewrite H3, Ht.
    unfold closed. rewrite Hext. cbn. f_equal.
    rewrite <- !app_assoc. done. }
  destruct (poll_loop correlation_id deadline c w1) as [[[msg|]|e] w2] eqn:Hr;
    cbn [fst snd] in *.
  - split; [apply Hw2; [apply extends_refl | done]|].
    split; [done|]. split; [done|]. split; [done|]. split; [|done].
    intros Ht. apply Hup. unfold POLL_TIMEOUT_MS. subst deadline w1. cbn. lia.
  - split; [apply Hw2; [apply extends_record | done]|].
    split; [done|]. split; [done|]. split; [intros _; by apply Hlow|].
    split; [|done].
    intros Ht. apply Hup. unfold POLL_TIMEOUT_MS. subst deadline w1. cbn. lia.
  - split; [apply Hw2; [apply extends_refl | done]|].
    split; [done|]. split; [done|]. split; [done|]. split; [|done].
    intros Ht. apply Hup. unfold POLL_TIMEOUT_MS. subst deadline w1. cbn. lia.
Qed.

Lemma consume_one_refused topic correlation_id timeout group_id w e :
  b_subscribe (w_broker w) = Some e →
  consume_one topic correlation_id timeout group_id w
  = (Raised e,
     record (KafkaConsumer_new topic (broker (w_kafka w))
               (group_id +:+ "-" +:+ correlation_id) latest) w).
Proof. intros H. rewrite consume_one_unfold. cbv zeta. by rewrite H. Qed.

Lemma polled_app l1 l2 : polled (l1 ++ l2) = (polled l1 ++ polled l2)%list.
Proof.
  induction l1 as [|ev l1 IH]; [done|].
  destruct ev as [| | |g t [records|e]| | |]; cbn; rewrite ?IH; try done.
  by rewrite app_assoc.
Qed.

Lemma consume_one_returned topic correlation_id timeout group_id w res w' :
  consume_one topic correlation_id timeout group_id w = (Returned res, w') →
  b_subscribe (w_broker w) = None.
Proof.
  intros H. destruct (b_subscribe (w_broker w)) as [e|] eqn:Hsub; [|done].
  by rewrite (consume_one_refused _ _ _ _ _ e Hsub) in H.
Qed.

(** ** The first match, and nothing else *)

(** C1.  A call of [consume_one] with correlation id X that returns,
    returns the first message, in arrival order, that is a mapping whose
    [correlation_id] equals X, and [None] when the polls delivered none:
    the messages polled are those the response topic delivered, from the
    first on and in that order, the result is the first of them that
    matches, and a message with another [correlation_id] is never
    returned. *)
Theorem consume_one_first_match topic correlation_id timeout group_id w res w' :
  consume_one topic correlation_id timeout group_id w = (Returned res, w') →
  polled (since w w') `prefix_of` arrivals_of (t_feed (topic_of w topic))
  ∧ res = List.find (is_match correlation_id) (polled (since w w'))
  ∧ ∀ msg, res = Some msg →
      ∃ fields, msg = JDict fields
                ∧ fields !! "correlation_id" = Some (JStr correlation_id).
Proof.
  intros Hrun.
  pose proof (consume_one_returned _ _ _ _ _ _ _ Hrun) as Hsub.
  destruct (consume_one_run topic correlation_id timeout group_id w Hsub)
    as (new & Hext & _ & Hres & _ & _ & Harr).
  rewrite Hrun in Hext, Hres. cbn [fst snd] in Hext, Hres.
  assert (Hpolled : polled (since w w') = polled new).
  { rewrite (extends_since _ _ _ Hext).
    change (polled (?ev :: ?l)) with (polled l).
    rewrite polled_app. cbn [polled].
    destruct res as [msg|]; cbn [polled]; by rewrite app_nil_r. }
  rewrite Hpolled. split; [exact Harr|].
  assert (Hfind : res = List.find (is_match correlation_id) (polled new))
    by by apply Hres.
  split; [exact Hfind|].
  intros msg ->. symmetry in Hfind. by eapply find_is_match.
Qed.

Lemma consume_one_first_match_witness :
  consume_one "search-response" "X" 120 "flask-client" world_ABXC
  = (Returned (Some (reply "X" "ok")),
     (consume_one "search-response" "X" 120 "flask-client" world_ABXC).2)
  ∧ Some (reply "X" "ok")
    = List.find (is_match "X")
        (polled (since world_ABXC
           (consume_one "search-response" "X" 120 "flask-client" world_ABXC).2)).
Proof.
  assert (H : consume_one "search-response" "X" 120 "flask-client" world_ABXC
    = (Returned (Some (reply "X" "ok")),
       (consume_one "search-response" "X" 120 "flask-client" world_ABXC).2))
    by (vm_compute; reflexivity).
  split; [exact H|].
  exact (proj1 (proj2 (consume_one_first_match _ _ _ _ _ _ _ H))).
Defined.

(** The stream A, B, X, C: the reply for X is returned, those for A, B
    and C are not, and the stale reply in the log is not seen. *)
Example stream_ABXC_returns_X :
  let r := consume_one "search-response" "X" 120 "flask-client" world_ABXC in
  r.1 = Returned (Some (reply "X" "ok"))
  ∧ polled (since world_ABXC r.2)
    = [reply "A" "ok"; reply "B" "ok"; JNull; reply "X" "ok"; reply "C" "ok"]
  ∧ w_now r.2 = 2800.
Proof. vm_compute. done. Qed.

(** ** The subscription is released *)


(** The three ways out. *)
Example releases_on_match :
  let r := consume_one "search-response" "X" 120 "flask-client" world_ABXC in
  r.1 = Returned (Some (reply "X" "ok")) ∧ w_open r.2 = 0%nat
  ∧ last (w_trace r.2) = Some (Consumer_close "flask-client-X").
Proof. vm_compute. done. Qed.

Example releases_on_timeout :
  let r := consume_one "search-response" "X" 2 "flask-client" world_ABXC in
  r.1 = Returned None ∧ w_open r.2 = 0%nat ∧ w_now r.2 = 2300
  ∧ drop 4 (w_trace r.2)
    = [Consumer_close "flask-client-X"; timed_out 2 "X" "search-response"].
Proof. vm_compute. done. Qed.

Example releases_on_error :
  let r := consume_one "search-response" "X" 120 "flask-client" world_failing in
  r.1 = Raised (KafkaError "broker gone") ∧ w_open r.2 = 0%nat
  ∧ last (w_trace r.2) = Some (Consumer_close "flask-client-X").
Proof. vm_compute. done. Qed.

(** ** A deadline already passed *)





(** ** The timeout window *)












(** ** Messages that are not response envelopes *)

Lemma is_match_envelope correlation_id msg :
  is_match correlation_id msg = true → has_correlation_id msg = true.
Proof.
  destruct msg as [| | | | | |fields]; try done. cbn.
  destruct (fields !! "correlation_id"); [|done].
  intros _. by apply bool_decide_eq_true.
Qed.

Lemma scan_partition_envelopes correlation_id records :
  scan_partition correlation_id (List.filter has_correlation_id records)
  = scan_partition correlation_id records.
Proof.
  induction records as [|msg rest IH]; [done|]. cbn.
  destruct (has_correlation_id msg) eqn:Hc; cbn; rewrite IH; [done|].
  destruct (is_match correlation_id msg) eqn:Hm; [|done].
  apply is_match_envelope in Hm. congruence.
Qed.

Lemma scan_records_envelopes correlation_id records :
  scan_records correlation_id (List.filter has_correlation_id <$> records)
  = scan_records correlation_id records.
Proof.
  induction records as [|p rest IH]; [done|]. cbn.
  by rewrite scan_partition_envelopes, IH.
Qed.

Lemma deserialize_partition_pruned p :
  deserialize_partition (List.filter is_envelope p)
  = match deserialize_partition p with
    | Returned records => Returned (List.filter has_correlation_id records)
    | Raised e => Raised e
    end.
Proof.
  induction p as [|[v|raw] p IH]; [done| |].
  - cbn. destruct (has_correlation_id v) eqn:Hc; cbn; rewrite IH;
      destruct (deserialize_partition p); cbn; by rewrite ?Hc.
  - done.
Qed.

Lemma deserialize_records_pruned ps :
  deserialize_records (List.filter is_envelope <$> ps)
  = match deserialize_records ps with
    | Returned records => Returned (List.filter has_correlation_id <$> records)
    | Raised e => Raised e
    end.
Proof.
  induction ps as [|p ps IH]; [done|]. cbn.
  rewrite deserialize_partition_pruned, IH.
  destruct (deserialize_partition p); [|done].
  by destruct (deserialize_records ps).
Qed.

(** A poll of the pruned feed, next to a poll of the feed itself. *)
Lemma poll_pruned c c' slice w w' :
  c_feed c' = prune_feed (c_feed c) →
  w_now w' = w_now w →
  w_now (poll c' slice w').2 = w_now (poll c slice w).2
  ∧ match (poll c slice w).1 with
    | Raised e => (poll c' slice w').1 = Raised e
    | Returned (records, c1) =>
        ∃ c1', (poll c' slice w').1
               = Returned (List.filter has_correlation_id <$> records, c1')
               ∧ c_feed c1' = prune_feed (c_feed c1)
    end.
Proof.
  intros Hfeed Hnow. unfold poll. rewrite Hfeed.
  destruct (c_feed c) as [|[d f] rest] eqn:Hc;
    cbn [prune_feed fmap list_fmap a_delay a_fetch].
  - cbn. split; [lia|]. eexists. split; [done|]. by rewrite Hfeed, Hc.
  - destruct (d <=? slice)%N.
    + destruct f as [ps|e]; cbn [prune_fetch].
      * rewrite deserialize_records_pruned.
        destruct (deserialize_records ps); cbn; (split; [lia|]); [|done].
        eexists. split; done.
      * cbn. split; [lia|done].
    + cbn. split; [lia|]. eexists. split; done.
Qed.

Lemma poll_loop_pruned correlation_id deadline c w :
  ∀ c' w',
    c_feed c' = prune_feed (c_feed c) →
    w_now w' = w_now w →
    (poll_loop correlation_id deadline c' w').1
    = (poll_loop correlation_id deadline c w).1
    ∧ w_now (poll_loop correlation_id deadline c' w').2
      = w_now (poll_loop correlation_id deadline c w).2.
Proof.
  revert c w.
  apply (poll_loop_cases correlation_id deadline (λ c w r,
    ∀ c' w', c_feed c' = prune_feed (c_feed c) → w_now w' = w_now w →
      (poll_loop correlation_id deadline c' w').1 = r.1
      ∧ w_now (poll_loop correlation_id deadline c' w').2 = w_now r.2)).
  - intros c w Hge c' w' _ Hnow. rewrite poll_loop_step.
    rewrite decide_False by lia. done.
  - intros c w e w1 Hlt Hpoll c' w' Hfeed Hnow. rewrite poll_loop_step.
    rewrite decide_True by lia.
    destruct (poll_pruned c c' POLL_TIMEOUT_MS w w' Hfeed Hnow) as [Ht Ho].
    rewrite Hpoll in Ht, Ho. cbn [fst snd] in Ht, Ho.
    destruct (poll c' POLL_TIMEOUT_MS w') as [o' w1'].
    cbn [fst snd] in Ht, Ho. by subst o'.
  - intros c w records c1 w1 msg Hlt Hpoll Hscan c' w' Hfeed Hnow.
    rewrite poll_loop_step. rewrite decide_True by lia.
    destruct (poll_pruned c c' POLL_TIMEOUT_MS w w' Hfeed Hnow) as [Ht Ho].
    rewrite Hpoll in Ht, Ho. cbn [fst snd] in Ht, Ho.
    destruct Ho as (c1' & Ho & _).
    destruct (poll c' POLL_TIMEOUT_MS w') as [o' w1'].
    cbn [fst snd] in Ht, Ho. subst o'.
    by rewrite scan_records_envelopes, Hscan.
  - intros c w records c1 w1 Hlt Hpoll Hscan IH c' w' Hfeed Hnow.
    rewrite poll_loop_step. rewrite decide_True by lia.
    destruct (poll_pruned c c' POLL_TIMEOUT_MS w w' Hfeed Hnow) as [Ht Ho].
    rewrite Hpoll in Ht, Ho. cbn [fst snd] in Ht, Ho.
    destruct Ho as (c1' & Ho & Hfeed1).
    destruct (poll c' POLL_TIMEOUT_MS w') as [o' w1'].
    cbn [fst snd] in Ht, Ho. subst o'.
    rewrite scan_records_envelopes, Hscan. by apply IH.
Qed.

Lemma topic_of_pruned w topic :
  t_feed (topic_of (prune_world w) topic) = prune_feed (t_feed (topic_of w topic)).
Proof.
  unfold topic_of, prune_world. cbn. rewrite lookup_fmap.
  by destruct (b_topics (w_broker w) !! topic).
Qed.

Lemma consume_one_pruned topic correlation_id timeout group_id w :
  let r := consume_one topic correlation_id timeout group_id w in
  let r' := consume_one topic correlation_id timeout group_id (prune_world w) in
  r'.1 = r.1 ∧ w_now r'.2 = w_now r.2.
Proof.
  cbv zeta. rewrite !consume_one_unfold. cbv zeta.
  change (b_subscribe (w_broker (prune_world w)))
    with (b_subscribe (w_broker w)).
  change (w_now (prune_world w)) with (w_now w).
  destruct (b_subscribe (w_broker w)); [done|].
  set (g := group_id +:+ "-" +:+ correlation_id).
  set (deadline := w_now w + timeout * 1000).
  set (c := MkConsumer topic g (t_feed (topic_of w topic))).
  set (c' := MkConsumer topic g (t_feed (topic_of (prune_world w) topic))).
  set (w1 := set_open _ (record _ w)).
  set (w1' := set_open _ (record _ (prune_world w))).
  destruct (poll_loop_pruned correlation_id deadline c w1 c' w1') as [Ho Ht];
    [apply topic_of_pruned | done |].
  rewrite Ho.
  destruct (poll_loop correlation_id deadline c w1).1 as [[m|]|e];
    cbn; by rewrite Ht.
Qed.

(** C2, as stated, fails: a record whose body does not decode is not
    discarded.  The deserializer raises inside [poll], [consume_one] has no
    handler, and the call ends with that exception 100 ms in, although
    the reply for X arrives 100 ms later and the deadline is 120 s away;
    without the undecodable record the reply is returned. *)
Lemma undecodable_record_ends_call :
  let r := consume_one "search-response" "X" 120 "flask-client" world_poisoned in
  r.1 = Raised (ValueError "JSONDecodeError")
  ∧ w_now r.2 = 100
  ∧ ever_matches "X" (t_feed (topic_of world_poisoned "search-response")) = true
  ∧ (consume_one "search-response" "X" 120 "flask-client" world_clean).1
    = Returned (Some (reply "X" "ok")).
Proof. vm_compute. done. Qed.

(** C2, amended.  A message on the response topic that decodes but is not
    a mapping, or has no [correlation_id] field, is discarded and never
    returned, and polling goes on as if it had not been there: with all
    such messages removed from the topic the call has the same outcome at
    the same time. *)
Theorem non_envelopes_discarded topic correlation_id timeout group_id w :
  let r := consume_one topic correlation_id timeout group_id w in
  let r' := consume_one topic correlation_id timeout group_id (prune_world w) in
  r'.1 = r.1
  ∧ w_now r'.2 = w_now r.2
  ∧ ∀ msg, r.1 = Returned (Some msg) → has_correlation_id msg = true.
Proof.
  cbv zeta.
  destruct (consume_one_pruned topic correlation_id timeout group_id w)
    as [Hsame Htime].
  split; [exact Hsame|]. split; [exact Htime|].
  clear Hsame Htime. intros msg Hres.
  destruct (consume_one topic correlation_id timeout group_id w)
    as [o w'] eqn:Hrun. cbn [fst] in Hres. subst o.
  pose proof (consume_one_returned _ _ _ _ _ _ _ Hrun) as Hsub.
  destruct (consume_one_run topic correlation_id timeout group_id w Hsub)
    as (new & _ & _ & Hfind & _).
  rewrite Hrun in Hfind. specialize (Hfind _ eq_refl). symmetry in Hfind.
  apply List.find_some in Hfind as [_ Hm]. by eapply is_match_envelope.
Qed.

(** On the stream A, B, X, C the [null] between B and X is such a
    message. *)
Example null_is_discarded :
  t_feed (topic_of (prune_world world_ABXC) "search-response")
  = [Arrival 300 (Records [[Encoded (reply "A" "ok"); Encoded (reply "B" "ok")];
                           []]);
     Arrival 2500 (Records [[Encoded (reply "X" "ok"); Encoded (reply "C" "ok")]])]
  ∧ (consume_one "search-response" "X" 120 "flask-client"
       (prune_world world_ABXC)).1
    = (consume_one "search-response" "X" 120 "flask-client" world_ABXC).1.
Proof. vm_compute. done. Qed.

End listener.

(** * Properties of the orchestrator, the views of [app.py] *)

Section orchestrator.

Import kafka_client app.

Lemma evolves_refl w : evolves w w [].
Proof. unfold evolves. by rewrite app_nil_r. Qed.

Lemma evolves_trans w1 w2 w3 l1 l2 :
  evolves w1 w2 l1 → evolves w2 w3 l2 → evolves w1 w3 (l1 ++ l2).
Proof.
  unfold evolves. intros (?&?&?&?&?&?) (?&?&?&?&?&?).
  rewrite app_assoc. split_and!; congruence.
Qed.

Lemma extends_evolves w w' new : extends w w' new → evolves w w' new.
Proof. unfold extends, evolves. by intros ->. Qed.

Lemma evolves_since w w' new : evolves w w' new → since w w' = new.
Proof.
  unfold evolves, since. intros (_&_&_&_&_&->). by rewrite drop_app_length.
Qed.

(** [produce]: its outcome is decided by the broker alone, it only adds
    producer events, and when it returns the message was sent and
    acknowledged, in that order, at the end of what it added. *)
Lemma produce_spec topic message w :
  let r := produce topic message w in
  ∃ new,
    evolves w r.2 new
    ∧ w_now r.2 = w_now w
    ∧ w_session r.2 = w_session w
    ∧ Forall producer_event new
    ∧ r.1 = match publish_fails w with
            | Some e => Raised e
            | None => Returned tt
            end
    ∧ (r.1 = Returned tt →
       ∃ before ack, new = (before ++ [Producer_send topic message; ack])%list
                     ∧ acked topic ack).
Proof.
  cbv zeta. unfold produce, _get_producer, send_and_wait, try_except, logger,
    emit, modify, get, raise, publish_fails.
  unfold mbind, M_bind, bind, mret, M_ret, ret. cbn.
  destruct (_producer (w_kafka w)) eqn:Hp; cbn.
  - destruct (b_send (w_broker w)) as [partition offset|e] eqn:Hs; cbn.
    + eexists. split; [by unfold evolves; cbn; rewrite <- app_assoc|].
      split_and!; try done; [repeat constructor|].
      intros _. eexists [], _. split; [done|]. by eexists _, _.
    + destruct (is_KafkaError e); cbn.
      * eexists. split; [by unfold evolves; cbn; rewrite <- app_assoc|].
        split_and!; try done. repeat constructor.
      * eexists. split; [by unfold evolves; cbn|].
        split_and!; try done. repeat constructor.
  - destruct (b_connect (w_broker w)) as [e|] eqn:Hc; cbn.
    + eexists. split; [by unfold evolves; cbn|].
      split_and!; try done. repeat constructor.
    + destruct (b_send (w_broker w)) as [partition offset|e] eqn:Hs; cbn.
      * eexists. split; [by unfold evolves; cbn; rewrite <- !app_assoc|].
        split_and!; try done; [repeat constructor|].
        intros _. eexists [_], _. split; [done|]. by eexists _, _.
      * destruct (is_KafkaError e); cbn.
        -- eexists. split; [by unfold evolves; cbn; rewrite <- !app_assoc|].
           split_and!; try done. repeat constructor.
        -- eexists. split; [by unfold evolves; cbn; rewrite <- !app_assoc|].
           split_and!; try done. repeat constructor.
Qed.

(** ** Computations that do not see the log of a topic *)

Lemma blind_ret {A} (a : A) : backlog_blind (mret a).
Proof. done. Qed.

Lemma blind_raise {A} e : backlog_blind (@raise A e).
Proof. done. Qed.

Lemma blind_bind {A B} (m : M A) (k : A → M B) :
  backlog_blind m → (∀ a, backlog_blind (k a)) → backlog_blind (m ≫= k).
Proof.
  intros Hm Hk w. unfold mbind, M_bind, bind. rewrite (Hm w).
  destruct (m w) as [[a|e] w1]; cbn; [apply Hk | done].
Qed.

Lemma blind_emit ev : backlog_blind (emit ev).
Proof. done. Qed.

Lemma blind_logger lvl format args : backlog_blind (logger lvl format args).
Proof. done. Qed.

Lemma blind_getenv name fallback : backlog_blind (getenv name fallback).
Proof. done. Qed.

Lemma blind_uuid4 : backlog_blind uuid4.
Proof. done. Qed.

Lemma blind_time_time : backlog_blind time_time.
Proof. done. Qed.

Lemma blind_pure {A} (o : outcome A) : backlog_blind (λ w, (o, w)).
Proof. done. Qed.

Lemma blind_produce topic message : backlog_blind (produce topic message).
Proof.
  intros w. unfold produce, _get_producer, send_and_wait, try_except, logger,
    emit, modify, get, raise.
  unfold mbind, M_bind, bind, mret, M_ret, ret. cbn.
  destruct (_producer (w_kafka w)); cbn.
  - destruct (b_send (w_broker w)) as [?|e]; cbn; [done|].
    by destruct (is_KafkaError e).
  - destruct (b_connect (w_broker w)); cbn; [done|].
    destruct (b_send (w_broker w)) as [?|e]; cbn; [done|].
    by destruct (is_KafkaError e).
Qed.

Lemma blind_poll c slice : backlog_blind (poll c slice).
Proof.
  intros w. unfold poll. destruct (c_feed c) as [|[d f] rest]; [done|].
  cbn [a_delay a_fetch]. destruct (d <=? slice)%N; [|done].
  destruct f as [ps|e]; [|done]. by destruct (deserialize_records ps).
Qed.

Lemma blind_poll_loop correlation_id deadline c :
  backlog_blind (poll_loop correlation_id deadline c).
Proof.
  intros w. revert c w.
  apply (poll_loop_cases correlation_id deadline (λ c w r,
    poll_loop correlation_id deadline c (forget_backlogs w)
    = (r.1, forget_backlogs r.2)));
    intros c w; intros; rewrite poll_loop_step;
    change (w_now (forget_backlogs w)) with (w_now w);
    destruct (decide (w_now w < deadline)); try done;
    rewrite (blind_poll c POLL_TIMEOUT_MS w);
    repeat match goal with
           | H : poll _ _ _ = _ |- _ => rewrite H; clear H
           | H : scan_records _ _ = _ |- _ => cbn; rewrite H; clear H
           end; done.
Qed.

Lemma topic_of_forgotten w topic :
  t_feed (topic_of (forget_backlogs w) topic) = t_feed (topic_of w topic).
Proof.
  unfold topic_of, forget_backlogs. cbn. rewrite lookup_fmap.
  by destruct (b_topics (w_broker w) !! topic).
Qed.

Lemma blind_consume_one topic correlation_id timeout group_id :
  backlog_blind (consume_one topic correlation_id timeout group_id).
Proof.
  intros w. rewrite !consume_one_unfold. cbv zeta.
  rewrite topic_of_forgotten.
  change (b_subscribe (w_broker (forget_backlogs w)))
    with (b_subscribe (w_broker w)).
  destruct (b_subscribe (w_broker w)); [done|].
  change (w_now (forget_backlogs w)) with (w_now w).
  match goal with
  | |- context [poll_loop ?a ?b ?c (set_open ?n (record ?ev (forget_backlogs w)))] =>
      change (set_open n (record ev (forget_backlogs w)))
        with (forget_backlogs (set_open n (record ev w)));
      rewrite (blind_poll_loop a b c (set_open n (record ev w)))
  end.
  cbn [fst snd].
  by destruct (poll_loop _ _ _ _).1 as [[?|]|?].
Qed.

(** ** The call pattern the three views share *)

Lemma index_papers_unfold request w :
  index_papers request w =
  if bool_decide (scholar_url_of request = "") then
    (Returned (jsonify (error_body "No URL provided") 400), w)
  else
    round_trip "KAFKA_TOPIC_SEARCH_REQUEST" "search-request"
      "KAFKA_TOPIC_SEARCH_RESPONSE" "search-response" (w_uuid w)
      (index_papers_message (w_uuid w) (scholar_url_of request))
      (index_papers_done (w_uuid w)) w.
Proof. unfold index_papers, scholar_url_of. by case_bool_decide. Qed.

Lemma search_unfold request w :
  search request w =
  match method request with
  | GET => (Returned (render_template "index.html" "search"), w)
  | POST =>
      if bool_decide (term_of request = "") then
        (Returned (jsonify (error_body "No search term provided") 400), w)
      else
        round_trip "KAFKA_TOPIC_SEARCH_TERM_REQUEST" "search-term-request"
          "KAFKA_TOPIC_SEARCH_TERM_RESPONSE" "search-term-response" (w_uuid w)
          (search_message (w_uuid w) (term_of request)) search_done w
  end.
Proof.
  unfold search, term_of. destruct (method request); [done|].
  by case_bool_decide.
Qed.

Lemma topn_unfold request w :
  topn request w =
  match method request with
  | GET => (Returned (render_template "index.html" "topn"), w)
  | POST =>
      match form_n request with
      | Raised e =>
          if is_ValueError e
          then (Returned (jsonify (error_body "N must be an integer") 400), w)
          else (Raised e, w)
      | Returned n =>
          round_trip "KAFKA_TOPIC_TOPN_REQUEST" "topn-request"
            "KAFKA_TOPIC_TOPN_RESPONSE" "topn-response" (w_uuid w)
            (topn_message (w_uuid w) n) topn_done w
      end
  end.
Proof.
  unfold topn. destruct (method request); [done|].
  destruct (form_n request) as [n|e]; [done|]. by destruct (is_ValueError e).
Qed.

Lemma round_trip_unfold request_var request_default response_var
    response_default correlation_id message k w :
  round_trip request_var request_default response_var response_default
    correlation_id message k w =
  let p := produce (default request_default (w_environ w !! request_var))
             message w in
  match p.1 with
  | Raised e => (Raised e, p.2)
  | Returned _ =>
      match int (default "120" (w_environ w !! "KAFKA_RESPONSE_TIMEOUT")) with
      | Raised e => (Raised e, p.2)
      | Returned timeout =>
          let c := consume_one
                     (default response_default (w_environ w !! response_var))
                     correlation_id timeout "flask-client" p.2 in
          match c.1 with
          | Raised e => (Raised e, c.2)
          | Returned response => k response c.2
          end
      end
  end.
Proof.
  cbv zeta.
  destruct (produce_spec (default request_default (w_environ w !! request_var))
              message w) as (new & (Henv & _) & _).
  unfold round_trip, getenv. unfold mbind, M_bind, bind. cbn.
  destruct (produce _ message w) as [[[]|e] w1]; cbn in *; [|done].
  rewrite Henv. destruct (int _) as [timeout|e]; [|done].
  by destruct (consume_one _ _ _ _ _) as [[response|e] w2].
Qed.

(** ** Validation before any broker interaction *)






(** ** A failed publish *)

Lemma producer_not_consumer ev : producer_event ev → ¬ consumer_event ev.
Proof. destruct ev; cbn; tauto. Qed.

Lemma round_trip_publish_fails request_var request_default response_var
    response_default correlation_id message k w e :
  publish_fails w = Some e →
  fails_before_listening e w
    (round_trip request_var request_default response_var response_default
       correlation_id message k w).
Proof.
  intros Hfail. rewrite round_trip_unfold. cbv zeta.
  destruct (produce_spec (default request_default (w_environ w !! request_var))
              message w) as (new & Hev & _ & _ & Hnew & Hout & _).
  rewrite Hfail in Hout. rewrite Hout. unfold fails_before_listening.
  cbn [fst snd]. rewrite (evolves_since _ _ _ Hev).
  split; [done|]. split; [|by destruct Hev as (_&_&_&_&?&_)].
  eapply Forall_impl; [exact Hnew|].
  intros ev Hp. split; [done | by apply producer_not_consumer].
Qed.

(** C6.  When publishing the request fails, each view ends at once with
    the exception of the publish (a timeout is the answer 504, not an
    exception) and the listener is never invoked: no consumer is created
    for the call. *)
Theorem publish_failure_skips_listener request w e :
  publish_fails w = Some e →
  (scholar_url_of request ≠ "" →
   fails_before_listening e w (index_papers request w))
  ∧ (method request = POST → term_of request ≠ "" →
     fails_before_listening e w (search request w))
  ∧ (method request = POST → (∃ n, form_n request = Returned n) →
     fails_before_listening e w (topn request w)).
Proof.
  intros Hfail. split_and!.
  - intros Hurl. rewrite index_papers_unfold.
    rewrite bool_decide_false by done. by apply round_trip_publish_fails.
  - intros Hpost Hterm. rewrite search_unfold, Hpost.
    rewrite bool_decide_false by done. by apply round_trip_publish_fails.
  - intros Hpost [n Hn]. rewrite topn_unfold, Hpost, Hn.
    by apply round_trip_publish_fails.
Qed.

Lemma publish_failure_skips_listener_witness :
  publish_fails world_unreachable = Some (KafkaError "NoBrokersAvailable")
  ∧ fails_before_listening (KafkaError "NoBrokersAvailable") world_unreachable
      (index_papers (post "scholar_url" "https://scholar.example/u")
         world_unreachable)
  ∧ fails_before_listening (KafkaError "NoBrokersAvailable") world_unreachable
      (search (post "term" "graph theory") world_unreachable)
  ∧ fails_before_listening (KafkaError "NoBrokersAvailable") world_unreachable
      (topn (post "n" "5") world_unreachable).
Proof.
  split; [reflexivity|]. split_and!.
  - apply (proj1 (publish_failure_skips_listener
                    (post "scholar_url" "https://scholar.example/u")
                    world_unreachable _ eq_refl)).
    vm_compute. discriminate.
  - apply (proj1 (proj2 (publish_failure_skips_listener
                    (post "term" "graph theory") world_unreachable _ eq_refl)));
      [reflexivity | vm_compute; discriminate].
  - apply (proj2 (proj2 (publish_failure_skips_listener
                    (post "n" "5") world_unreachable _ eq_refl)));
      [reflexivity | by eexists].
Defined.

Example publish_failure_trace :
  let r := index_papers (post "scholar_url" "https://scholar.example/u")
             world_unreachable in
  r.1 = Raised (KafkaError "NoBrokersAvailable")
  ∧ since world_unreachable r.2
    = [KafkaProducer_new "localhost:9092";
       Producer_send "search-request"
         (index_papers_message "X" "https://scholar.example/u");
       Log ERROR "Failed to produce message to %s: %s"
         [JStr "search-request"; JStr "NoBrokersAvailable"]].
Proof. vm_compute. done. Qed.

(** ** Publish, then subscribe from the latest offset *)

Lemma silent_index_papers_done correlation_id :
  silent (index_papers_done correlation_id).
Proof. by intros [?|] w. Qed.

Lemma silent_search_done : silent search_done.
Proof. by intros [?|] w. Qed.

Lemma silent_topn_done : silent topn_done.
Proof. by intros [?|] w. Qed.

Lemma since_same_trace w w1 w2 :
  w_trace w2 = w_trace w1 → since w w2 = since w w1.
Proof. unfold since. by intros ->. Qed.

Lemma loop_event_listening g ev : loop_event g ev → listening_event ev.
Proof. destruct ev as [| | | | | |[]]; cbn; tauto. Qed.

Lemma round_trip_trace request_var request_default response_var
    response_default correlation_id message k w :
  silent k →
  publish_then_listen
    (since w (round_trip request_var request_default response_var
                response_default correlation_id message k w).2).
Proof.
  intros Hk. rewrite round_trip_unfold. cbv zeta.
  set (request_topic := default request_default (w_environ w !! request_var)).
  destruct (produce_spec request_topic message w)
    as (new & Hev & _ & _ & Hnew & _ & Hsent).
  assert (Hquiet : publish_then_listen new).
  { exists new, []. rewrite app_nil_r. by split_and!; [..|left]. }
  destruct (produce request_topic message w) as [[[]|e] w1];
    cbn [fst snd] in *; [|by rewrite (evolves_since _ _ _ Hev)].
  destruct (int _) as [timeout|e]; cbn [fst snd];
    [|by rewrite (evolves_since _ _ _ Hev)].
  destruct (Hsent eq_refl) as (before & ack & -> & Hack).
  set (response_topic := default response_default (w_environ w !! response_var)).
  assert (Hlisten : ∀ c2 rest,
    evolves w1 c2
      (KafkaConsumer_new response_topic (broker (w_kafka w1))
         ("flask-client" +:+ "-" +:+ correlation_id) latest :: rest) →
    Forall listening_event rest →
    publish_then_listen (since w c2)).
  { intros c2 rest Hc2 Hrest.
    rewrite (evolves_since _ _ _ (evolves_trans _ _ _ _ _ Hev Hc2)).
    eexists _, _. split; [done|]. split; [done|]. right.
    by eexists _, _, _, rest, before, request_topic, message, ack. }
  destruct (b_subscribe (w_broker w1)) as [e|] eqn:Hsub.
  - rewrite (consume_one_refused _ _ _ _ _ e Hsub). cbn [fst snd].
    apply (Hlisten _ []); [|constructor].
    apply extends_evolves, extends_record.
  - destruct (consume_one_run response_topic correlation_id timeout
                "flask-client" w1 Hsub) as (loop & Hext & Hloop & _).
    assert (Hc : publish_then_listen
      (since w (consume_one response_topic correlation_id timeout
                  "flask-client" w1).2)).
    { eapply Hlisten; [apply extends_evolves, Hext|].
      apply Forall_app. split.
      - eapply Forall_impl; [exact Hloop | apply loop_event_listening].
      - constructor; [done|].
        destruct (consume_one _ _ _ _ _).1 as [[?|]|?]; by repeat constructor. }
    destruct (consume_one _ _ _ _ _) as [[response|e] w2]; cbn [fst snd] in *;
      [|done].
    by rewrite (since_same_trace _ _ _ (Hk response w2)).
Qed.

Lemma publish_then_listen_nil : publish_then_listen [].
Proof. exists [], []. by split_and!; [..|left]. Qed.

Create HintDb blind.

#[local] Hint Resolve blind_ret blind_raise blind_emit blind_logger
  blind_getenv blind_uuid4 blind_time_time blind_pure blind_produce
  blind_consume_one | 1 : blind.

#[local] Hint Resolve blind_bind | 5 : blind.

Lemma blind_round_trip request_var request_default response_var
    response_default correlation_id message k :
  (∀ response, backlog_blind (k response)) →
  backlog_blind (round_trip request_var request_default response_var
                   response_default correlation_id message k).
Proof.
  intros Hk. unfold round_trip. eauto 12 with blind.
Qed.

Lemma blind_index_papers_done correlation_id response :
  backlog_blind (index_papers_done correlation_id response).
Proof. by destruct response. Qed.

Lemma blind_search_done response : backlog_blind (search_done response).
Proof. by destruct response. Qed.

Lemma blind_topn_done response : backlog_blind (topn_done response).
Proof. by destruct response. Qed.

(** C7.  In every call of a view the request is published, and its
    acknowledgement logged, before the consumer on the response topic is
    created; the consumer reads from the latest offset, so what the log
    of the topic holds at that moment, a reply that came early included,
    is never seen: the call runs the same way as with empty logs. *)
Theorem publish_precedes_latest_subscription request :
  ((∀ w, publish_then_listen (since w (index_papers request w).2))
   ∧ backlog_blind (index_papers request))
  ∧ ((∀ w, publish_then_listen (since w (search request w).2))
     ∧ backlog_blind (search request))
  ∧ ((∀ w, publish_then_listen (since w (topn request w).2))
     ∧ backlog_blind (topn request)).
Proof.
  split_and!.
  - intros w. rewrite index_papers_unfold. case_bool_decide.
    + cbn [snd]. rewrite since_self. apply publish_then_listen_nil.
    + apply round_trip_trace, silent_index_papers_done.
  - intros w. rewrite !index_papers_unfold.
    change (w_uuid (forget_backlogs w)) with (w_uuid w).
    case_bool_decide; [done|].
    apply blind_round_trip, blind_index_papers_done.
  - intros w. rewrite search_unfold. destruct (method request).
    + cbn [snd]. rewrite since_self. apply publish_then_listen_nil.
    + case_bool_decide.
      * cbn [snd]. rewrite since_self. apply publish_then_listen_nil.
      * apply round_trip_trace, silent_search_done.
  - intros w. rewrite !search_unfold.
    change (w_uuid (forget_backlogs w)) with (w_uuid w).
    destruct (method request); [done|]. case_bool_decide; [done|].
    apply blind_round_trip, blind_search_done.
  - intros w. rewrite topn_unfold. destruct (method request).
    + cbn [snd]. rewrite since_self. apply publish_then_listen_nil.
    + destruct (form_n request) as [n|e].
      * apply round_trip_trace, silent_topn_done.
      * destruct (is_ValueError e); cbn [snd]; rewrite since_self;
          apply publish_then_listen_nil.
  - intros w. rewrite !topn_unfold.
    change (w_uuid (forget_backlogs w)) with (w_uuid w).
    destruct (method request); [done|].
    destruct (form_n request) as [n|e].
    + apply blind_round_trip, blind_topn_done.
    + by destruct (is_ValueError e).
Qed.

Example early_reply_is_missed :
  let r := index_papers (post "scholar_url" "https://scholar.example/u")
             world_early_reply in
  r.1 = Returned (jsonify (error_body "Timed out waiting for indexing response")
                    504)
  ∧ w_now r.2 = 3000
  ∧ take 4 (since world_early_reply r.2)
    = [KafkaProducer_new "localhost:9092";
       Producer_send "search-request"
         (index_papers_message "X" "https://scholar.example/u");
       Log INFO "Produced to %s [partition %d offset %d]"
         [JStr "search-request"; JInt 0; JInt 0];
       KafkaConsumer_new "search-response" "localhost:9092" "flask-client-X"
         latest].
Proof. vm_compute. done. Qed.

(** A consumer reading from the earliest offset would have been handed
    that reply by its first poll. *)
Example earliest_would_replay :
  let opened := KafkaConsumer "search-response" "localhost:9092"
                  "flask-client-X" earliest world_early_reply in
  match opened.1 with
  | Returned c =>
      (poll c POLL_TIMEOUT_MS opened.2).1
      = Returned ([[reply "X" "ok"]], with_feed [] c)
  | Raised _ => False
  end.
Proof. vm_compute. done. Qed.

(** ** Configuration *)


Lemma validate_config_missing cfg w :
  gcp_config.GCP_PROJECT_ID cfg = ""
  ∨ gcp_config.DATAPROC_CLUSTER_NAME cfg = "" →
  ∃ text, gcp_config._validate_config cfg w = (Raised (EnvironmentError text), w).
Proof.
  unfold gcp_config._validate_config, gcp_config.missing_names.
  intros H. cbn.
  destruct (decide (gcp_config.GCP_PROJECT_ID cfg = ""));
    destruct (decide (gcp_config.DATAPROC_CLUSTER_NAME cfg = ""));
    cbn; try by eexists.
  by destruct H.
Qed.

Lemma validate_config_present cfg w :
  gcp_config.GCP_PROJECT_ID cfg ≠ "" →
  gcp_config.DATAPROC_CLUSTER_NAME cfg ≠ "" →
  gcp_config._validate_config cfg w = (Returned tt, w).
Proof.
  unfold gcp_config._validate_config, gcp_config.missing_names.
  intros H1 H2. cbn.
  destruct (decide (gcp_config.GCP_PROJECT_ID cfg = "")); [done|].
  by destruct (decide (gcp_config.DATAPROC_CLUSTER_NAME cfg = "")).
Qed.




End orchestrator.

(** * Properties of [gcp_config.py] *)

Section dataproc.

Import gcp_config.

(** C10.  [trigger_dataproc_job] raises [EnvironmentError] exactly when
    [GCP_PROJECT_ID] or [DATAPROC_CLUSTER_NAME] is empty, leaving the world
    untouched; otherwise, whatever [job_args] is, it logs two lines,
    submits nothing, and returns "dataproc-job-not-yet-implemented". *)
Theorem trigger_dataproc_job_placeholder cfg job_args w :
  let r := trigger_dataproc_job cfg job_args w in
  ((∃ text, r.1 = Raised (EnvironmentError text))
   ↔ GCP_PROJECT_ID cfg = "" ∨ DATAPROC_CLUSTER_NAME cfg = "")
  ∧ ((∃ e, r.1 = Raised e) → ∃ text, r = (Raised (EnvironmentError text), w))
  ∧ (GCP_PROJECT_ID cfg ≠ "" → DATAPROC_CLUSTER_NAME cfg ≠ "" →
     r.1 = Returned "dataproc-job-not-yet-implemented"
     ∧ Forall is_log (since w r.2)
     ∧ length (since w r.2) = 2%nat).
Proof.
  cbv zeta. unfold trigger_dataproc_job. unfold mbind, M_bind, bind.
  destruct (decide (GCP_PROJECT_ID cfg = "")) as [Hp|Hp];
    [|destruct (decide (DATAPROC_CLUSTER_NAME cfg = "")) as [Hc|Hc]].
  - destruct (validate_config_missing cfg w (or_introl Hp)) as [text ->].
    cbn [fst snd]. split_and!; [split; eauto | eauto | done].
  - destruct (validate_config_missing cfg w (or_intror Hc)) as [text ->].
    cbn [fst snd]. split_and!; [split; eauto | eauto | done].
  - rewrite (validate_config_present cfg w Hp Hc). cbn.
    split_and!.
    + split; [by intros [? ?] | by intros [?|?]].
    + by intros [? ?].
    + intros _ _. split; [done|].
      unfold since, record. cbn. rewrite <- app_assoc, drop_app_length.
      split; [by repeat constructor | done].
Qed.

Lemma trigger_dataproc_job_placeholder_witness :
  let r := trigger_dataproc_job
             (MkConfig "my-project" "us-central1" "my-cluster" "" "")
             (Some ["gs://bucket/in"; "gs://bucket/out"]) world_ABXC in
  r.1 = Returned "dataproc-job-not-yet-implemented"
  ∧ Forall is_log (since world_ABXC r.2)
  ∧ length (since world_ABXC r.2) = 2%nat.
Proof.
  apply (proj2 (proj2 (trigger_dataproc_job_placeholder
           (MkConfig "my-project" "us-central1" "my-cluster" "" "")
           (Some ["gs://bucket/in"; "gs://bucket/out"]) world_ABXC)));
    vm_compute; discriminate.
Defined.

End dataproc.


(** * Further properties of [kafka_client.py] *)

Section client.

Import kafka_client.





(** Whatever way a call goes, the world it leaves is the one it found,
    with a later clock and a longer trace. *)
Lemma consume_one_extends topic correlation_id timeout group_id w :
  ∃ new,
    extends w (consume_one topic correlation_id timeout group_id w).2 new
    ∧ Forall (λ ev, consumer_event ev ∨ is_log ev) new.
Proof.
  destruct (b_subscribe (w_broker w)) as [e|] eqn:Hsub.
  - rewrite (consume_one_refused _ _ _ _ _ e Hsub). eexists.
    split; [apply extends_record|]. repeat constructor.
  - destruct (consume_one_run topic correlation_id timeout group_id w Hsub)
      as (new & Hext & Hloop & _).
    eexists. split; [exact Hext|].
    constructor; [by left|]. apply Forall_app. split.
    + eapply Forall_impl; [exact Hloop|].
      intros [| | | | | |[]]; cbn; tauto.
    + constructor; [by left|].
      destruct (consume_one _ _ _ _ _).1 as [[?|]|?];
        repeat constructor; by right.
Qed.


(** ** The listener keeps to itself *)

(** X1.  [consume_one] publishes nothing and changes nothing but the
    clock and the trace: the environment, the broker with its topics, the
    client with its cached producer and the session are what they were,
    the old trace is a prefix of the new one, and every new event is an
    event of the consumer or a log line. *)
Theorem consume_one_frame topic correlation_id timeout group_id w :
  let r := consume_one topic correlation_id timeout group_id w in
  w_environ r.2 = w_environ w
  ∧ w_broker r.2 = w_broker w
  ∧ w_kafka r.2 = w_kafka w
  ∧ w_session r.2 = w_session w
  ∧ w_trace w `prefix_of` w_trace r.2
  ∧ Forall (λ ev, is_publish ev = false) (since w r.2).
Proof.
  cbv zeta.
  destruct (consume_one_extends topic correlation_id timeout group_id w)
    as (new & Hext & Hnew).
  rewrite (extends_since _ _ _ Hext).
  unfold extends in Hext. rewrite Hext. cbn.
  split_and!; try done.
  - by apply prefix_app_r.
  - eapply Forall_impl; [exact Hnew|].
    intros [| | | | | |]; cbn; tauto.
Qed.



(** ** The first decisive arrival *)



(** A reply that comes after the deadline can still be returned, when
    the poll that brings it started before the deadline. *)
Example late_reply_within_last_poll :
  let late := world_with ∅ (quiet_broker {[ "search-response" :=
    MkTopic [] [Arrival 700 (Records [[Encoded (reply "A" "ok")]]);
                Arrival 900 (Records [[Encoded (reply "X" "ok")]])] ]}) in
  let r := consume_one "search-response" "X" 1 "flask-client" late in
  r.1 = Returned (Some (reply "X" "ok")) ∧ w_now r.2 = 1600.
Proof. vm_compute. done. Qed.

(** ** One consumer group for each correlation id *)

Lemma consume_one_first_event topic correlation_id timeout group_id w :
  since w (consume_one topic correlation_id timeout group_id w).2 !! 0%nat
  = Some (KafkaConsumer_new topic (broker (w_kafka w))
            (group_id +:+ "-" +:+ correlation_id) latest).
Proof.
  destruct (b_subscribe (w_broker w)) as [e|] eqn:Hsub.
  - rewrite (consume_one_refused _ _ _ _ _ e Hsub). cbn [snd].
    by rewrite (extends_since _ _ _ (extends_record _ _)).
  - destruct (consume_one_run topic correlation_id timeout group_id w Hsub)
      as (new & Hext & _).
    by rewrite (extends_since _ _ _ Hext).
Qed.

(** X4.  Every call of [consume_one] starts by creating a consumer that
    reads from the latest offset in the group [group_id-correlation_id];
    with one [group_id], two calls are in the same group only when they
    wait for the same correlation id. *)
Theorem consumer_group_per_correlation_id topic1 topic2 id1 id2 timeout1
    timeout2 group_id w1 w2 servers1 servers2 g1 g2 reset1 reset2 :
  since w1 (consume_one topic1 id1 timeout1 group_id w1).2 !! 0%nat
  = Some (KafkaConsumer_new topic1 servers1 g1 reset1) →
  since w2 (consume_one topic2 id2 timeout2 group_id w2).2 !! 0%nat
  = Some (KafkaConsumer_new topic2 servers2 g2 reset2) →
  (reset1 = latest ∧ reset2 = latest)
  ∧ g1 = group_id +:+ "-" +:+ id1
  ∧ (g1 = g2 → id1 = id2).
Proof.
  rewrite !consume_one_first_event. intros [= <- <- <-] [= <- <- <-].
  split; [done|]. split; [done|].
  intros Hg. by do 2 apply (inj (String.app _)) in Hg.
Qed.

Lemma consumer_group_per_correlation_id_witness :
  since world_ABXC
    (consume_one "search-response" "X" 0 "flask-client" world_ABXC).2 !! 0%nat
  = Some (KafkaConsumer_new "search-response" "localhost:9092"
            "flask-client-X" latest)
  ∧ since world_ABXC
      (consume_one "search-response" "Y" 5 "flask-client" world_ABXC).2 !! 0%nat
    = Some (KafkaConsumer_new "search-response" "localhost:9092"
              "flask-client-Y" latest)
  ∧ "flask-client-X" = "flask-client" +:+ "-" +:+ "X"
  ∧ ("flask-client-X" = "flask-client-Y" → "X" = "Y").
Proof.
  assert (H1 : since world_ABXC
      (consume_one "search-response" "X" 0 "flask-client" world_ABXC).2 !! 0%nat
    = Some (KafkaConsumer_new "search-response" "localhost:9092"
              "flask-client-X" latest)) by (vm_compute; reflexivity).
  assert (H2 : since world_ABXC
      (consume_one "search-response" "Y" 5 "flask-client" world_ABXC).2 !! 0%nat
    = Some (KafkaConsumer_new "search-response" "localhost:9092"
              "flask-client-Y" latest)) by (vm_compute; reflexivity).
  split; [exact H1|]. split; [exact H2|].
  exact (proj2 (consumer_group_per_correlation_id _ _ _ _ _ _ _ _ _ _ _ _ _
                  _ _ H1 H2)).
Defined.

(** ** What a call depends on *)





(** ** The producer *)

(** The events of one [produce], in order. *)
Lemma produce_events topic message w :
  since w (produce topic message w).2
  = ((if _producer (w_kafka w) then []
      else [KafkaProducer_new (broker (w_kafka w))])
     ++ (if connects w then
           Producer_send topic message
           :: match b_send (w_broker w) with
              | Ack partition offset =>
                  [Log INFO "Produced to %s [partition %d offset %d]"
                     [JStr topic; JInt partition; JInt offset]]
              | SendFails e =>
                  if is_KafkaError e
                  then [Log ERROR "Failed to produce message to %s: %s"
                          [JStr topic; JStr (exn_text e)]]
                  else []
              end
         else []))%list.
Proof.
  unfold produce, _get_producer, send_and_wait, try_except, logger,
    emit, modify, get, raise, connects, since.
  unfold mbind, M_bind, bind, mret, M_ret, ret. cbn.
  destruct (_producer (w_kafka w)); cbn.
  - destruct (b_send (w_broker w)) as [?|e]; cbn;
      [|destruct (is_KafkaError e); cbn];
      rewrite <- ?app_assoc; apply drop_app_length.
  - destruct (b_connect (w_broker w)); cbn; [apply drop_app_length|].
    destruct (b_send (w_broker w)) as [?|e]; cbn;
      [|destruct (is_KafkaError e); cbn];
      rewrite <- ?app_assoc; apply drop_app_length.
Qed.

Lemma produce_client topic message w :
  w_kafka (produce topic message w).2
  = MkKafkaClient (broker (w_kafka w)) (connects w).
Proof.
  unfold produce, _get_producer, send_and_wait, try_except, logger,
    emit, modify, get, raise, connects.
  unfold mbind, M_bind, bind, mret, M_ret, ret. cbn.
  destruct (w_kafka w) as [address []] eqn:Hk; cbn.
  - destruct (b_send (w_broker w)) as [?|e]; cbn; [done|].
    by destruct (is_KafkaError e).
  - destruct (b_connect (w_broker w)); cbn; [done|].
    destruct (b_send (w_broker w)) as [?|e]; cbn; [done|].
    by destruct (is_KafkaError e).
Qed.

(** X6.  The producer is created on first use and kept: over two
    publishes in a row the constructor runs once when it succeeds and
    not at all when a producer was already there, and the client ends up
    with a producer; when the constructor fails, nothing is cached and
    the second publish tries again. *)
Theorem producer_is_cached topic1 message1 topic2 message2 w :
  let first := produce topic1 message1 w in
  let second := produce topic2 message2 first.2 in
  length (List.filter is_construction (since w second.2))
  = (if _producer (w_kafka w) then 0
     else if connects w then 1 else 2)%nat
  ∧ _producer (w_kafka second.2) = connects w
  ∧ broker (w_kafka second.2) = broker (w_kafka w).
Proof.
  cbv zeta.
  destruct (produce_spec topic1 message1 w) as (new1 & Hev1 & _).
  destruct (produce_spec topic2 message2 (produce topic1 message1 w).2)
    as (new2 & Hev2 & _).
  rewrite (evolves_since _ _ _ (evolves_trans _ _ _ _ _ Hev1 Hev2)).
  rewrite <- (evolves_since _ _ _ Hev1), <- (evolves_since _ _ _ Hev2).
  rewrite !produce_events, !produce_client.
  assert (Hb : w_broker (produce topic1 message1 w).2 = w_broker w)
    by by destruct Hev1 as (_ & _ & ? & _).
  unfold connects. rewrite produce_client, Hb. cbn [broker _producer].
  unfold connects.
  destruct (_producer (w_kafka w)); cbn.
  - by destruct (b_send (w_broker w)) as [?|[]].
  - destruct (b_connect (w_broker w)); cbn; [done|].
    by destruct (b_send (w_broker w)) as [?|[]].
Qed.

(** X7.  [produce] ends with the exception of the broker, unchanged, or
    returns when there is none.  It sends exactly when it has or gets a
    producer, and logs an error exactly when the send fails with a
    [KafkaError]: a failure of the constructor, or an exception of
    another class, is raised without a log line. *)
Theorem produce_reraises topic message w :
  let r := produce topic message w in
  r.1 = match publish_fails w with
        | Some e => Raised e
        | None => Returned tt
        end
  ∧ existsb is_send (since w r.2) = connects w
  ∧ existsb is_error_log (since w r.2)
    = connects w
      && match b_send (w_broker w) with
         | SendFails e => is_KafkaError e
         | Ack _ _ => false
         end.
Proof.
  cbv zeta.
  destruct (produce_spec topic message w) as (_ & _ & _ & _ & _ & Hout & _).
  split; [exact Hout|]. rewrite produce_events. unfold connects.
  destruct (_producer (w_kafka w)); cbn.
  - by destruct (b_send (w_broker w)) as [?|[]].
  - destruct (b_connect (w_broker w)); cbn; [done|].
    by destruct (b_send (w_broker w)) as [?|[]].
Qed.

(** X8.  [produce] never creates, polls or closes a consumer: the
    environment, the broker, the session and the number of open
    consumers are what they were, the old trace is a prefix of the new
    one, and no new event is an event of a consumer. *)
Theorem produce_frame topic message w :
  let r := produce topic message w in
  w_environ r.2 = w_environ w
  ∧ w_broker r.2 = w_broker w
  ∧ w_session r.2 = w_session w
  ∧ w_open r.2 = w_open w
  ∧ w_trace w `prefix_of` w_trace r.2
  ∧ Forall (λ ev, ¬ consumer_event ev) (since w r.2).
Proof.
  cbv zeta.
  destruct (produce_spec topic message w)
    as (new & Hev & Hnow & Hsession & Hnew & _).
  rewrite (evolves_since _ _ _ Hev).
  destruct Hev as (Henv & _ & Hb & _ & Hopen & Htrace).
  split_and!; try done.
  - rewrite Htrace. by apply prefix_app_r.
  - eapply Forall_impl; [exact Hnew | apply producer_not_consumer].
Qed.

End client.

(** * Further properties of [app.py] *)

Section views.

Import kafka_client app.

Lemma topic_of_broker w w' topic :
  w_broker w' = w_broker w → topic_of w' topic = topic_of w topic.
Proof. unfold topic_of. by intros ->. Qed.

Lemma extends_session w w' new : extends w w' new → w_session w' = w_session w.
Proof. unfold extends. by intros ->. Qed.

(** The two ways a round trip goes: it ends with an exception, or the
    listener returned and the continuation runs on what it returned. *)
Lemma round_trip_cases request_var request_default response_var
    response_default correlation_id message k w :
  let r := round_trip request_var request_default response_var
             response_default correlation_id message k w in
  let topic := default response_default (w_environ w !! response_var) in
  (∃ e, r.1 = Raised e ∧ w_session r.2 = w_session w)
  ∨ ∃ response w2 timeout,
      r = k response w2
      ∧ w_session w2 = w_session w
      ∧ int (default "120" (w_environ w !! "KAFKA_RESPONSE_TIMEOUT"))
        = Returned timeout
      ∧ match response with
        | None =>
            w_now w + timeout * 1000 ≤ w_now w2
            ∧ last (w_trace w2) = Some (timed_out timeout correlation_id topic)
        | Some msg =>
            is_match correlation_id msg = true
            ∧ msg ∈ arrivals_of (t_feed (topic_of w topic))
        end.
Proof.
  cbv zeta. rewrite round_trip_unfold. cbv zeta.
  set (request_topic := default request_default (w_environ w !! request_var)).
  set (topic := default response_default (w_environ w !! response_var)).
  destruct (produce_spec request_topic message w)
    as (new & Hev & Hnow & Hsession & _).
  destruct (produce request_topic message w) as [[[]|e] w1];
    cbn [fst snd] in *; [|left; by exists e].
  destruct (int _) as [timeout|e] eqn:Hint; [|left; by exists e].
  destruct (consume_one topic correlation_id timeout "flask-client" w1)
    as [[response|e] w2] eqn:Hrun; cbn [fst snd].
  - right. exists response, w2, timeout.
    pose proof (consume_one_returned _ _ _ _ _ _ _ Hrun) as Hsub.
    destruct (consume_one_run topic correlation_id timeout "flask-client"
                w1 Hsub) as (loop & Hext & _ & Hres & Hlow & _ & Harr).
    rewrite Hrun in Hext, Hres, Hlow. cbn [fst snd] in Hext, Hres, Hlow.
    split; [done|].
    split; [by rewrite (extends_session _ _ _ Hext)|].
    split; [done|].
    specialize (Hres _ eq_refl). destruct response as [msg|].
    + symmetry in Hres. apply List.find_some in Hres as [Hin Hmatch].
      split; [done|].
      rewrite <- (topic_of_broker w w1 topic)
        by by destruct Hev as (_ & _ & ? & _).
      apply list_elem_of_In in Hin.
      destruct Harr as [rest ->]. apply elem_of_app. by left.
    + split; [rewrite <- Hnow; by apply Hlow|].
      unfold extends in Hext. rewrite Hext. cbn [w_trace].
      by rewrite last_app_cons, app_comm_cons, last_app_cons.
  - left. exists e. split; [done|].
    destruct (consume_one_extends topic correlation_id timeout "flask-client"
                w1) as (loop & Hext & _).
    rewrite Hrun in Hext. cbn [snd] in Hext.
    by rewrite (extends_session _ _ _ Hext).
Qed.


Lemma index_papers_done_some correlation_id msg w :
  index_papers_done correlation_id (Some msg) w
  = (Returned (jsonify (JDict {[ "status" := JStr "ok" ]}) 200),
     set_session (<["correlation_id" := correlation_id]> (w_session w)) w).
Proof. done. Qed.





(** ** What an answer says *)

(** X11.  What the status of an answer says about the call.  400: the
    request was rejected and nothing was done.  504: the call waited
    until its deadline and logged the warning last.  200: a message that
    carries the id of this call arrived on the response topic, and
    [search] and [topn] answer with that message, [index_papers] with
    [status: ok].  No other status is returned. *)
Theorem answer_accounts_for_call request w body status :
  ((index_papers request w).1 = Returned (jsonify body status) →
   accounts_for "KAFKA_TOPIC_SEARCH_RESPONSE" "search-response" false
     w (index_papers request w).2 body status)
  ∧ ((search request w).1 = Returned (jsonify body status) →
     accounts_for "KAFKA_TOPIC_SEARCH_TERM_RESPONSE" "search-term-response"
       true w (search request w).2 body status)
  ∧ ((topn request w).1 = Returned (jsonify body status) →
     accounts_for "KAFKA_TOPIC_TOPN_RESPONSE" "topn-response" true
       w (topn request w).2 body status).
Proof.
  unfold accounts_for. split_and!.
  - rewrite index_papers_unfold. case_bool_decide.
    + intros [= <- <-]. by left.
    + destruct (round_trip_cases "KAFKA_TOPIC_SEARCH_REQUEST" "search-request"
                  "KAFKA_TOPIC_SEARCH_RESPONSE" "search-response" (w_uuid w)
                  (index_papers_message (w_uuid w) (scholar_url_of request))
                  (index_papers_done (w_uuid w)) w)
        as [(e & -> & _)|(response & w2 & timeout & -> & _ & Hint & Hresp)];
        [done|].
      destruct response as [msg|].
      * rewrite index_papers_done_some. intros [= <- <-].
        right. right. split; [done|]. exists msg. by destruct Hresp.
      * intros [= <- <-]. right. left. split; [done|]. exists timeout.
        by destruct Hresp.
  - rewrite search_unfold. destruct (method request); [done|].
    case_bool_decide.
    + intros [= <- <-]. by left.
    + destruct (round_trip_cases "KAFKA_TOPIC_SEARCH_TERM_REQUEST"
                  "search-term-request" "KAFKA_TOPIC_SEARCH_TERM_RESPONSE"
                  "search-term-response" (w_uuid w)
                  (search_message (w_uuid w) (term_of request)) search_done w)
        as [(e & -> & _)|(response & w2 & timeout & -> & _ & Hint & Hresp)];
        [done|].
      destruct response as [msg|].
      * intros [= <- <-].
        right. right. split; [done|]. exists msg. by destruct Hresp.
      * intros [= <- <-]. right. left. split; [done|]. exists timeout.
        by destruct Hresp.
  - rewrite topn_unfold. destruct (method request); [done|].
    destruct (form_n request) as [n|e].
    + destruct (round_trip_cases "KAFKA_TOPIC_TOPN_REQUEST" "topn-request"
                  "KAFKA_TOPIC_TOPN_RESPONSE" "topn-response" (w_uuid w)
                  (topn_message (w_uuid w) n) topn_done w)
        as [(e & -> & _)|(response & w2 & timeout & -> & _ & Hint & Hresp)];
        [done|].
      destruct response as [msg|].
      * intros [= <- <-].
        right. right. split; [done|]. exists msg. by destruct Hresp.
      * intros [= <- <-]. right. left. split; [done|]. exists timeout.
        by destruct Hresp.
    + destruct (is_ValueError e); [|done]. intros [= <- <-]. by left.
Qed.

Lemma answer_accounts_for_call_witness :
  let request := post "term" "graph theory" in
  (search request world_replies).1 = Returned (jsonify (reply "X" "found") 200)
  ∧ accounts_for "KAFKA_TOPIC_SEARCH_TERM_RESPONSE" "search-term-response"
      true world_replies (search request world_replies).2
      (reply "X" "found") 200.
Proof.
  cbv zeta.
  assert (H : (search (post "term" "graph theory") world_replies).1
              = Returned (jsonify (reply "X" "found") 200))
    by (vm_compute; reflexivity).
  split; [exact H|].
  exact (proj1 (proj2 (answer_accounts_for_call (post "term" "graph theory")
                         world_replies (reply "X" "found") 200)) H).
Defined.

(** X12.  The session is written by [index_papers] alone, and only when
    it answers 200: it then holds the id of that call under
    [correlation_id], with its other keys untouched.  In every other
    case, an exception included, and in [search] and [topn] always, the
    session is what it was. *)
Theorem session_holds_last_indexed_id request w :
  w_session (index_papers request w).2
  = (if answered_ok (index_papers request w).1
     then <["correlation_id" := w_uuid w]> (w_session w)
     else w_session w)
  ∧ w_session (search request w).2 = w_session w
  ∧ w_session (topn request w).2 = w_session w.
Proof.
  split_and!.
  - rewrite index_papers_unfold. case_bool_decide; [done|].
    destruct (round_trip_cases "KAFKA_TOPIC_SEARCH_REQUEST" "search-request"
                "KAFKA_TOPIC_SEARCH_RESPONSE" "search-response" (w_uuid w)
                (index_papers_message (w_uuid w) (scholar_url_of request))
                (index_papers_done (w_uuid w)) w)
      as [(e & He & Hs)|(response & w2 & timeout & -> & Hs & _)].
    + by rewrite He.
    + destruct response as [msg|]; [|done].
      rewrite index_papers_done_some. cbn. by rewrite Hs.
  - rewrite search_unfold. destruct (method request); [done|].
    case_bool_decide; [done|].
    destruct (round_trip_cases "KAFKA_TOPIC_SEARCH_TERM_REQUEST"
                "search-term-request" "KAFKA_TOPIC_SEARCH_TERM_RESPONSE"
                "search-term-response" (w_uuid w)
                (search_message (w_uuid w) (term_of request)) search_done w)
      as [(e & He & Hs)|(response & w2 & timeout & -> & Hs & _)]; [done|].
    by destruct response.
  - rewrite topn_unfold. destruct (method request); [done|].
    destruct (form_n request) as [n|e]; [|by destruct (is_ValueError e)].
    destruct (round_trip_cases "KAFKA_TOPIC_TOPN_REQUEST" "topn-request"
                "KAFKA_TOPIC_TOPN_RESPONSE" "topn-response" (w_uuid w)
                (topn_message (w_uuid w) n) topn_done w)
      as [(e & He & Hs)|(response & w2 & timeout & -> & Hs & _)]; [done|].
    by destruct response.
Qed.

(** ** One request, one listener *)

Lemma filter_none {A} (P : A → Prop) (f : A → bool) l :
  Forall P l → (∀ x, P x → f x = false) → List.filter f l = [].
Proof.
  intros Hl Hf. induction Hl as [|x l Hx _ IH]; cbn; [done|].
  by rewrite (Hf x Hx).
Qed.

Lemma produce_call_events topic message response_topic group w :
  let new := since w (produce topic message w).2 in
  Forall (call_event topic message response_topic (broker (w_kafka w)) group)
    new
  ∧ (length (List.filter is_send new) ≤ 1)%nat
  ∧ List.filter is_subscription new = [].
Proof.
  cbv zeta. rewrite produce_events. unfold connects.
  destruct (_producer (w_kafka w)); cbn.
  - destruct (b_send (w_broker w)) as [?|[]]; cbn;
      (split_and!; [repeat constructor | lia | done]).
  - destruct (b_connect (w_broker w)); cbn;
      [split_and!; [repeat constructor | lia | done]|].
    destruct (b_send (w_broker w)) as [?|[]]; cbn;
      (split_and!; [repeat constructor | lia | done]).
Qed.

Lemma consume_one_call_events request_topic message topic correlation_id
    timeout group_id w :
  let new := since w (consume_one topic correlation_id timeout group_id w).2 in
  Forall (call_event request_topic message topic (broker (w_kafka w))
            (group_id +:+ "-" +:+ correlation_id)) new
  ∧ List.filter is_send new = []
  ∧ length (List.filter is_subscription new) = 1%nat.
Proof.
  cbv zeta. destruct (b_subscribe (w_broker w)) as [e|] eqn:Hsub.
  - rewrite (consume_one_refused _ _ _ _ _ e Hsub). cbn [snd].
    rewrite (extends_since _ _ _ (extends_record _ _)).
    split_and!; [by repeat constructor | done | done].
  - destruct (consume_one_run topic correlation_id timeout group_id w Hsub)
      as (loop & Hext & Hloop & _).
    rewrite (extends_since _ _ _ Hext).
    set (g := group_id +:+ "-" +:+ correlation_id) in *.
    assert (Hsend : List.filter is_send loop = []).
    { apply (filter_none _ _ _ Hloop). intros [| | | | | |[]]; cbn; tauto. }
    assert (Hnew : List.filter is_subscription loop = []).
    { apply (filter_none _ _ _ Hloop). intros [| | | | | |[]]; cbn; tauto. }
    split_and!.
    + constructor; [done|]. apply Forall_app. split.
      * eapply Forall_impl; [exact Hloop|].
        intros [| | | | | |[]]; cbn; tauto.
      * constructor; [done|].
        destruct (consume_one _ _ _ _ _).1 as [[?|]|?]; by repeat constructor.
    + cbn. rewrite List.filter_app, Hsend. cbn.
      by destruct (consume_one _ _ _ _ _).1 as [[?|]|?].
    + cbn. rewrite List.filter_app, Hnew. cbn.
      by destruct (consume_one _ _ _ _ _).1 as [[?|]|?].
Qed.

Lemma round_trip_events request_var request_default response_var
    response_default correlation_id message k w :
  silent k →
  let new := since w (round_trip request_var request_default response_var
                        response_default correlation_id message k w).2 in
  Forall (call_event (default request_default (w_environ w !! request_var))
            message (default response_default (w_environ w !! response_var))
            (broker (w_kafka w)) ("flask-client" +:+ "-" +:+ correlation_id))
    new
  ∧ (length (List.filter is_send new) ≤ 1)%nat
  ∧ (length (List.filter is_subscription new) ≤ 1)%nat.
Proof.
  intros Hk. cbv zeta. rewrite round_trip_unfold. cbv zeta.
  set (request_topic := default request_default (w_environ w !! request_var)).
  set (topic := default response_default (w_environ w !! response_var)).
  set (g := "flask-client" +:+ "-" +:+ correlation_id).
  destruct (produce_spec request_topic message w) as (new & Hev & _).
  destruct (produce_call_events request_topic message topic g w)
    as (Hp1 & Hp2 & Hp3).
  rewrite (evolves_since _ _ _ Hev) in Hp1, Hp2, Hp3.
  assert (Hpublished :
    Forall (call_event request_topic message topic (broker (w_kafka w)) g)
      (since w (produce request_topic message w).2)
    ∧ (length (List.filter is_send (since w (produce request_topic message w).2))
      ≤ 1)%nat
    ∧ (length (List.filter is_subscription (since w (produce request_topic message w).2)) ≤ 1)%nat).
  { rewrite (evolves_since _ _ _ Hev), Hp3. cbn. split_and!; [done|done|lia]. }
  destruct (produce request_topic message w) as [[[]|e] w1];
    cbn [fst snd] in *; [|done].
  destruct (int _) as [timeout|e]; [|done].
  destruct (consume_one_call_events request_topic message topic correlation_id
              timeout "flask-client" w1) as (Hc1 & Hc2 & Hc3).
  destruct (consume_one_extends topic correlation_id timeout "flask-client" w1)
    as (heard & Hext & _).
  rewrite (extends_since _ _ _ Hext) in Hc1, Hc2, Hc3.
  assert (Hall : since w (consume_one topic correlation_id timeout
                            "flask-client" w1).2 = (new ++ heard)%list).
  { apply evolves_since.
    exact (evolves_trans _ _ _ _ _ Hev (extends_evolves _ _ _ Hext)). }
  assert (Hb : broker (w_kafka w1) = broker (w_kafka w))
    by by destruct Hev as (_ & _ & _ & ? & _).
  rewrite Hb in Hc1.
  assert (Hgoal :
    Forall (call_event request_topic message topic (broker (w_kafka w)) g)
      (new ++ heard)
    ∧ (length (List.filter is_send (new ++ heard)) ≤ 1)%nat
    ∧ (length (List.filter is_subscription (new ++ heard)) ≤ 1)%nat).
  { rewrite !List.filter_app, !length_app, Hc2, Hc3, Hp3. cbn.
    split_and!; [by apply Forall_app | lia | lia]. }
  destruct (consume_one topic correlation_id timeout "flask-client" w1)
    as [[response|e] w2]; cbn [fst snd] in *.
  - rewrite (since_same_trace _ _ _ (Hk response w2)). by rewrite Hall.
  - by rewrite Hall.
Qed.

(** X13.  All a call of a view does outside the process: it publishes at
    most one message, the envelope that holds the id drawn for the call
    and the trimmed field (for [topn], the count), on the request topic
    named in the environment; and it opens at most one consumer, on the
    response topic named there, in the group [flask-client-] followed by
    that same id, reading from the latest offset; that consumer is the
    only one polled and closed, and both sides use the address the
    client was built with. *)
Theorem one_request_one_listener request w :
  (let new := since w (index_papers request w).2 in
   Forall (call_event
             (default "search-request"
                (w_environ w !! "KAFKA_TOPIC_SEARCH_REQUEST"))
             (index_papers_message (w_uuid w) (scholar_url_of request))
             (default "search-response"
                (w_environ w !! "KAFKA_TOPIC_SEARCH_RESPONSE"))
             (broker (w_kafka w)) ("flask-client-" +:+ w_uuid w)) new
   ∧ (length (List.filter is_send new) ≤ 1)%nat
   ∧ (length (List.filter is_subscription new) ≤ 1)%nat)
  ∧ (let new := since w (search request w).2 in
     Forall (call_event
               (default "search-term-request"
                  (w_environ w !! "KAFKA_TOPIC_SEARCH_TERM_REQUEST"))
               (search_message (w_uuid w) (term_of request))
               (default "search-term-response"
                  (w_environ w !! "KAFKA_TOPIC_SEARCH_TERM_RESPONSE"))
               (broker (w_kafka w)) ("flask-client-" +:+ w_uuid w)) new
     ∧ (length (List.filter is_send new) ≤ 1)%nat
     ∧ (length (List.filter is_subscription new) ≤ 1)%nat)
  ∧ (∀ n, form_n request = Returned n →
     let new := since w (topn request w).2 in
     Forall (call_event
               (default "topn-request"
                  (w_environ w !! "KAFKA_TOPIC_TOPN_REQUEST"))
               (topn_message (w_uuid w) n)
               (default "topn-response"
                  (w_environ w !! "KAFKA_TOPIC_TOPN_RESPONSE"))
               (broker (w_kafka w)) ("flask-client-" +:+ w_uuid w)) new
     ∧ (length (List.filter is_send new) ≤ 1)%nat
     ∧ (length (List.filter is_subscription new) ≤ 1)%nat).
Proof.
  assert (Hnone : ∀ P : event → Prop,
    Forall P (since w w)
    ∧ (length (List.filter is_send (since w w)) ≤ 1)%nat
    ∧ (length (List.filter is_subscription (since w w)) ≤ 1)%nat).
  { intros P. rewrite since_self. cbn. split_and!; [done | lia | lia]. }
  split_and!.
  - cbv zeta. rewrite index_papers_unfold. case_bool_decide; [apply Hnone|].
    apply (round_trip_events "KAFKA_TOPIC_SEARCH_REQUEST" "search-request"
             "KAFKA_TOPIC_SEARCH_RESPONSE" "search-response"),
      silent_index_papers_done.
  - cbv zeta. rewrite search_unfold.
    destruct (method request); [apply Hnone|].
    case_bool_decide; [apply Hnone|].
    apply (round_trip_events "KAFKA_TOPIC_SEARCH_TERM_REQUEST"
             "search-term-request" "KAFKA_TOPIC_SEARCH_TERM_RESPONSE"
             "search-term-response"), silent_search_done.
  - intros n Hn. cbv zeta. rewrite topn_unfold, Hn.
    destruct (method request); [apply Hnone|].
    apply (round_trip_events "KAFKA_TOPIC_TOPN_REQUEST" "topn-request"
             "KAFKA_TOPIC_TOPN_RESPONSE" "topn-response"), silent_topn_done.
Qed.

Lemma one_request_one_listener_witness :
  let new := since world_replies (topn (post "n" " 5 ") world_replies).2 in
  form_n (post "n" " 5 ") = Returned 5
  ∧ Forall (call_event "topn-request" (topn_message "X" 5) "topn-response"
              "localhost:9092" "flask-client-X") new
  ∧ (length (List.filter is_send new) ≤ 1)%nat
  ∧ (length (List.filter is_subscription new) ≤ 1)%nat.
Proof.
  cbv zeta. split; [reflexivity|].
  exact (proj2 (proj2 (one_request_one_listener (post "n" " 5 ") world_replies))
           5 eq_refl).
Defined.

(** ** Validation *)








(** ** One producer for all requests *)

Lemma round_trip_keeps_producer request_var request_default response_var
    response_default correlation_id message k w :
  silent k → keeps_client k →
  _producer (w_kafka w) = true →
  let r := round_trip request_var request_default response_var
             response_default correlation_id message k w in
  w_kafka r.2 = w_kafka w
  ∧ List.filter is_construction (since w r.2) = [].
Proof.
  intros Hk Hclient Hp. cbv zeta. rewrite round_trip_unfold. cbv zeta.
  set (request_topic := default request_default (w_environ w !! request_var)).
  set (topic := default response_default (w_environ w !! response_var)).
  destruct (produce_spec request_topic message w) as (new & Hev & _).
  pose proof (produce_events request_topic message w) as Hnew.
  pose proof (produce_client request_topic message w) as Hc.
  rewrite (evolves_since _ _ _ Hev) in Hnew.
  unfold connects in Hnew, Hc. rewrite Hp in Hnew, Hc. cbn in Hnew, Hc.
  assert (Hsame : w_kafka (produce request_topic message w).2 = w_kafka w).
  { rewrite Hc. destruct (w_kafka w). cbn in Hp. by rewrite Hp. }
  assert (Hquiet : List.filter is_construction new = []).
  { rewrite Hnew. by destruct (b_send (w_broker w)) as [?|[]]. }
  assert (Hpublished :
    w_kafka (produce request_topic message w).2 = w_kafka w
    ∧ List.filter is_construction
        (since w (produce request_topic message w).2) = []).
  { by rewrite (evolves_since _ _ _ Hev). }
  destruct (produce request_topic message w) as [[[]|e] w1];
    cbn [fst snd] in *; [|done].
  destruct (int _) as [timeout|e]; [|done].
  destruct (consume_one_extends topic correlation_id timeout "flask-client" w1)
    as (heard & Hext & Hheard).
  assert (Hall : since w (consume_one topic correlation_id timeout
                            "flask-client" w1).2 = (new ++ heard)%list).
  { apply evolves_since.
    exact (evolves_trans _ _ _ _ _ Hev (extends_evolves _ _ _ Hext)). }
  assert (Hlistened :
    w_kafka (consume_one topic correlation_id timeout "flask-client" w1).2
    = w_kafka w
    ∧ List.filter is_construction (new ++ heard) = []).
  { split; [unfold extends in Hext; rewrite Hext; exact Hsame|].
    rewrite List.filter_app, Hquiet. cbn.
    apply (filter_none _ _ _ Hheard).
    intros [| | | | | |] [?|?]; done. }
  destruct (consume_one topic correlation_id timeout "flask-client" w1)
    as [[response|e] w2]; cbn [fst snd] in *.
  - rewrite (since_same_trace _ _ _ (Hk response w2)), Hall, Hclient.
    exact Hlistened.
  - by rewrite Hall.
Qed.

Lemma keeps_client_index_papers_done correlation_id :
  keeps_client (index_papers_done correlation_id).
Proof. by intros [?|] w. Qed.

Lemma keeps_client_search_done : keeps_client search_done.
Proof. by intros [?|] w. Qed.

Lemma keeps_client_topn_done : keeps_client topn_done.
Proof. by intros [?|] w. Qed.

(** X15.  The client, and the producer it caches, are shared by all
    requests: a request that finds the producer there uses it, never
    constructs another, and leaves it there, however the request ends. *)
Theorem producer_outlives_request request w :
  _producer (w_kafka w) = true →
  (w_kafka (index_papers request w).2 = w_kafka w
   ∧ List.filter is_construction (since w (index_papers request w).2) = [])
  ∧ (w_kafka (search request w).2 = w_kafka w
     ∧ List.filter is_construction (since w (search request w).2) = [])
  ∧ (w_kafka (topn request w).2 = w_kafka w
     ∧ List.filter is_construction (since w (topn request w).2) = []).
Proof.
  intros Hp.
  assert (Hnone : w_kafka w = w_kafka w
                  ∧ List.filter is_construction (since w w) = []).
  { by rewrite since_self. }
  split; [|split].
  - rewrite index_papers_unfold. case_bool_decide; [exact Hnone|].
    apply round_trip_keeps_producer;
      [apply silent_index_papers_done
      |apply keeps_client_index_papers_done|exact Hp].
  - rewrite search_unfold. destruct (method request); [exact Hnone|].
    case_bool_decide; [exact Hnone|].
    apply round_trip_keeps_producer;
      [apply silent_search_done | apply keeps_client_search_done | exact Hp].
  - rewrite topn_unfold. destruct (method request); [exact Hnone|].
    destruct (form_n request) as [n|e];
      [|by destruct (is_ValueError e)].
    apply round_trip_keeps_producer;
      [apply silent_topn_done | apply keeps_client_topn_done | exact Hp].
Qed.

Lemma producer_outlives_request_witness :
  let first := index_papers (post "scholar_url" "https://scholar.example/u")
                 world_replies in
  let second := search (post "term" "graph theory") first.2 in
  _producer (w_kafka first.2) = true
  ∧ w_kafka second.2 = w_kafka first.2
  ∧ List.filter is_construction (since first.2 second.2) = [].
Proof.
  cbv zeta.
  assert (Hp : _producer (w_kafka (index_papers
                 (post "scholar_url" "https://scholar.example/u")
                 world_replies).2) = true) by (vm_compute; reflexivity).
  split; [exact Hp|].
  exact (proj1 (proj2 (producer_outlives_request (post "term" "graph theory")
                         _ Hp))).
Defined.

End views.

(** * Further properties of [gcp_config.py] *)

Section settings.

Import gcp_config.

(** X16.  The error of [_validate_config] names the missing variables,
    those whose value is empty, and only them, the project before the
    cluster; the region, the jar and the main class are not looked at. *)
Theorem validate_config_names_missing cfg w :
  (GCP_PROJECT_ID cfg = "" → DATAPROC_CLUSTER_NAME cfg ≠ "" →
   _validate_config cfg w
   = (Raised (EnvironmentError
        "Missing required GCP environment variables: GCP_PROJECT_ID"), w))
  ∧ (GCP_PROJECT_ID cfg ≠ "" → DATAPROC_CLUSTER_NAME cfg = "" →
     _validate_config cfg w
     = (Raised (EnvironmentError
          "Missing required GCP environment variables: DATAPROC_CLUSTER_NAME"),
        w))
  ∧ (GCP_PROJECT_ID cfg = "" → DATAPROC_CLUSTER_NAME cfg = "" →
     _validate_config cfg w
     = (Raised (EnvironmentError
          "Missing required GCP environment variables: GCP_PROJECT_ID, DATAPROC_CLUSTER_NAME"),
        w))
  ∧ (∀ region jar main_class,
       _validate_config
         (MkConfig (GCP_PROJECT_ID cfg) region (DATAPROC_CLUSTER_NAME cfg)
            jar main_class) w
       = _validate_config cfg w).
Proof.
  unfold _validate_config, missing_names. cbn.
  split_and!.
  - intros Hp Hc. rewrite decide_True by done. cbn.
    by rewrite decide_False by done.
  - intros Hp Hc. rewrite decide_False by done.
    by rewrite decide_True by done.
  - intros Hp Hc. rewrite decide_True by done. cbn.
    by rewrite decide_True by done.
  - done.
Qed.

Lemma validate_config_names_missing_witness :
  _validate_config (MkConfig "" "us-central1" "my-cluster" "" "") world_ABXC
  = (Raised (EnvironmentError
       "Missing required GCP environment variables: GCP_PROJECT_ID"),
     world_ABXC)
  ∧ _validate_config (MkConfig "my-project" "" "" "" "") world_ABXC
    = (Raised (EnvironmentError
         "Missing required GCP environment variables: DATAPROC_CLUSTER_NAME"),
       world_ABXC)
  ∧ _validate_config (MkConfig "" "" "" "" "") world_ABXC
    = (Raised (EnvironmentError
         "Missing required GCP environment variables: GCP_PROJECT_ID, DATAPROC_CLUSTER_NAME"),
       world_ABXC).
Proof.
  split_and!.
  - apply (proj1 (validate_config_names_missing
                    (MkConfig "" "us-central1" "my-cluster" "" "") world_ABXC));
      [reflexivity | discriminate].
  - apply (proj1 (proj2 (validate_config_names_missing
                           (MkConfig "my-project" "" "" "" "") world_ABXC)));
      [discriminate | reflexivity].
  - apply (proj1 (proj2 (proj2 (validate_config_names_missing
                                  (MkConfig "" "" "" "" "") world_ABXC))));
      reflexivity.
Defined.

End settings.
